(** * argon2-cffi: the [PasswordHasher] policy layer

    A shallow embedding of [src/argon2/_password_hasher.py] and the
    properties its specification states about it.

    Conventions of the embedding:
    - a Python [bytes] object is a Rocq [string] (a sequence of 8-bit
      characters), so that byte literals such as [b"$argon2id"] are written
      as they are in the source;
    - a Python [str] is a list of Unicode code points ([pystr]);
    - a call that may raise returns a [result]; the only stateful
      collaborator, [os.urandom], threads the state of the random source;
    - the collaborators imported from modules outside this file
      ([hash_secret], [verify_secret], [extract_parameters], the profile
      constant, Python's codec registry) are parameters of the development. *)

From stdpp Require Import gmap strings list.
From Stdlib Require Import ZArith NArith String Ascii Bool DecimalString Lia.

Local Open Scope string_scope.
Local Open Scope Z_scope.

(** ** Python values *)

(** [bytes]: a sequence of octets. *)
Abbreviation bytes := string (only parsing).

(** [str]: a sequence of Unicode code points. *)
Definition pystr : Type := list N.

(** The text whose characters are the (Latin-1) characters of a literal. *)
Definition u (s : string) : pystr :=
  map N_of_ascii (list_ascii_of_string s).

(** [low_level.Type]: the three Argon2 variants. *)
Module Type_.
Inductive t : Set := D | I | ID.

Definition eqb (a b : t) : bool :=
  match a, b with
  | D, D | I, I | ID, ID => true
  | _, _ => false
  end.
End Type_.

(** The exceptions that can leave this module.  [InvalidParameterError] is
    the name used by the specification's error taxonomy; no path of the
    source raises it. *)
Inductive exn : Type :=
| TypeError (msg : string)
| ValueError
| LookupError
| UnicodeEncodeError
| UnicodeDecodeError
| InvalidHashError
| UnsupportedParamsError
| VerificationError
| VerifyMismatchError
| HashingError
| InvalidParameterError.

Inductive result (A : Type) : Type :=
| Ok (a : A)
| Err (e : exn).
Arguments Ok {A} a.
Arguments Err {A} e.

Definition bind {A B} (r : result A) (k : A -> result B) : result B :=
  match r with
  | Ok a => k a
  | Err e => Err e
  end.

Notation "'do' x <- r ; k" := (bind r (fun x => k))
  (at level 10, x name, r at level 100, k at level 200,
   format "'[v' 'do'  x  <-  r ; '/' k ']'").

(** The argument of a call: [str | bytes]. *)
Inductive str_or_bytes : Type :=
| Str (s : pystr)
| Bytes (b : bytes).

(** Dynamically typed values, as far as the constructor's arguments go. *)
Inductive PyVal : Type :=
| VNone
| VBool (b : bool)
| VInt (z : Z)
| VStr (s : pystr)
| VBytes (b : bytes)
| VType (t : Type_.t).

Inductive PyClass : Set := c_int | c_str | c_Type.

Definition class_name (c : PyClass) : string :=
  match c with c_int => "int" | c_str => "str" | c_Type => "Type" end.

(** [isinstance(v, c)]; [bool] is a subclass of [int]. *)
Definition isinstance (v : PyVal) (c : PyClass) : bool :=
  match c, v with
  | c_int, (VInt _ | VBool _) => true
  | c_str, VStr _ => true
  | c_Type, VType _ => true
  | _, _ => false
  end.

(** ** The ["ascii"] codec *)

Fixpoint ascii_encode (s : pystr) : result bytes :=
  match s with
  | [] => Ok EmptyString
  | c :: s' =>
      if (c <? 128)%N
      then do b <- ascii_encode s'; Ok (String (ascii_of_N c) b)
      else Err UnicodeEncodeError
  end.

Fixpoint ascii_decode (b : bytes) : result pystr :=
  match b with
  | EmptyString => Ok []
  | String c b' =>
      if (N_of_ascii c <? 128)%N
      then do s <- ascii_decode b'; Ok (N_of_ascii c :: s)
      else Err UnicodeDecodeError
  end.

(** ** [_utils.Parameters] *)

(** Modelled from the spec: the [Parameters] value type of [argon2._utils]
    (section 3), whose declaration is not part of the source file.  It is an
    immutable record with value equality; the field names are those of the
    constructor call in [PasswordHasher.__init__]. *)
Record Parameters : Type := mkParameters {
  type : Type_.t;
  version : Z;
  salt_len : Z;
  hash_len : Z;
  time_cost : Z;
  memory_cost : Z;
  parallelism : Z
}.

(** [P == Q] on [Parameters]: every field compared. *)
Definition Parameters_eqb (P Q : Parameters) : bool :=
  Type_.eqb (type P) (type Q)
  && (version P =? version Q)
  && (salt_len P =? salt_len Q)
  && (hash_len P =? hash_len Q)
  && (time_cost P =? time_cost Q)
  && (memory_cost P =? memory_cost Q)
  && (parallelism P =? parallelism Q).

(** [P != Q]. *)
Definition Parameters_neb (P Q : Parameters) : bool :=
  negb (Parameters_eqb P Q).

(** ** [_utils._check_types] *)

(** Modelled from the spec: [_check_types] of [argon2._utils] ("validates
    types", section 4.1), which is not part of the source file.  It checks
    every [name=(value, class)] with [isinstance] and returns [None] when all
    pass, and otherwise a message that names each offending argument. *)
Definition type_error (a : string * PyVal * PyClass) : list string :=
  let '(name, v, c) := a in
  if isinstance v c then []
  else ["'" +:+ name +:+ "' must be a " +:+ class_name c +:+ "."].

Definition _check_types (kw : list (string * PyVal * PyClass)) : option string :=
  match List.concat (map type_error kw) with
  | [] => None
  | errors => Some (String.concat ", " errors)
  end.

(** Truthiness of a value of type [str | None]. *)
Definition truthy_opt_str (e : option string) : bool :=
  match e with
  | None | Some EmptyString => false
  | Some _ => true
  end.

(** ** The runtime *)

(** What [is_wasm] reads: [sys.platform] and [platform.machine()]. *)
Record Env : Type := mkEnv {
  sys_platform : string;
  platform_machine : string
}.

Definition is_wasm (env : Env) : bool :=
  String.eqb (sys_platform env) "emscripten"
  || existsb (String.eqb (platform_machine env)) ["wasm32"; "wasm64"].

(** ** [PasswordHasher] *)

Record PasswordHasher : Type := mkPasswordHasher {
  _parameters : Parameters;
  encoding : pystr
}.

(** [ph._parameters = params] *)
Definition set_parameters (ph : PasswordHasher) (params : Parameters)
  : PasswordHasher :=
  {| _parameters := params; encoding := encoding ph |}.

(** The value of an argument that passed its [isinstance] check. *)
Definition as_int (v : PyVal) : option Z :=
  match v with
  | VInt z => Some z
  | VBool b => Some (Z.b2z b)
  | _ => None
  end.

Definition as_str (v : PyVal) : option pystr :=
  match v with VStr s => Some s | _ => None end.

Definition as_Type (v : PyVal) : option Type_.t :=
  match v with VType t => Some t | _ => None end.

(** [PasswordHasher._header_to_type] *)
Definition _header_to_type : gmap string Type_.t :=
  <["$argon2i$" := Type_.I]>
    (<["$argon2d$" := Type_.D]>
       (<["$argon2id" := Type_.ID]> ∅)).

(** [b[:n]] *)
Definition slice_to (n : nat) (b : bytes) : bytes := String.substring 0 n b.

(** The read-only properties of a hasher. *)
Definition ph_time_cost (self : PasswordHasher) : Z :=
  time_cost (_parameters self).
Definition ph_memory_cost (self : PasswordHasher) : Z :=
  memory_cost (_parameters self).
Definition ph_parallelism (self : PasswordHasher) : Z :=
  parallelism (_parameters self).
Definition ph_hash_len (self : PasswordHasher) : Z :=
  hash_len (_parameters self).
Definition ph_salt_len (self : PasswordHasher) : Z :=
  salt_len (_parameters self).
Definition ph_type (self : PasswordHasher) : Type_.t :=
  type (_parameters self).

(** Truthiness of a value of type [bytes | None]. *)
Definition truthy_opt_bytes (salt : option bytes) : bool :=
  match salt with
  | None | Some EmptyString => false
  | Some _ => true
  end.

Section PasswordHasher.

(** [profiles.RFC_9106_LOW_MEMORY] *)
Variable RFC_9106_LOW_MEMORY : Parameters.

(** The runtime in which the module was imported: the module-level
    defaults are computed once, from it. *)
Variable boot : Env.

Definition DEFAULT_RANDOM_SALT_LENGTH : Z := salt_len RFC_9106_LOW_MEMORY.
Definition DEFAULT_HASH_LENGTH : Z := hash_len RFC_9106_LOW_MEMORY.
Definition DEFAULT_TIME_COST : Z := time_cost RFC_9106_LOW_MEMORY.
Definition DEFAULT_MEMORY_COST : Z := memory_cost RFC_9106_LOW_MEMORY.
Definition DEFAULT_PARALLELISM : Z :=
  if is_wasm boot then 1 else parallelism RFC_9106_LOW_MEMORY.

(** Python's codec registry, for every codec but ["ascii"]:
    [codecs_encode name s] is [s.encode(name)]. *)
Variable codecs_encode : pystr -> pystr -> result bytes.

(** [s.encode(encoding)] *)
Definition str_encode (s : pystr) (encoding : pystr) : result bytes :=
  if decide (encoding = u "ascii") then ascii_encode s
  else codecs_encode encoding s.

Definition _ensure_bytes (s : str_or_bytes) (encoding : pystr)
  : result bytes :=
  match s with
  | Bytes b => Ok b
  | Str s => str_encode s encoding
  end.

(** [PasswordHasher.__init__], called in the runtime [env]. *)
Definition __init__ (env : Env)
    (time_cost memory_cost parallelism hash_len salt_len encoding type : PyVal)
  : result PasswordHasher :=
  let e := _check_types
             [("time_cost", time_cost, c_int);
              ("memory_cost", memory_cost, c_int);
              ("parallelism", parallelism, c_int);
              ("hash_len", hash_len, c_int);
              ("salt_len", salt_len, c_int);
              ("encoding", encoding, c_str);
              ("type", type, c_Type)] in
  if truthy_opt_str e then Err (TypeError (default "" e))
  else
    match as_int time_cost, as_int memory_cost, as_int parallelism,
          as_int hash_len, as_int salt_len, as_str encoding, as_Type type
    with
    | Some tc, Some mc, Some p, Some hl, Some sl, Some enc, Some ty =>
        let params :=
          {| type := ty; version := 19; salt_len := sl; hash_len := hl;
             time_cost := tc; memory_cost := mc; parallelism := p |} in
        if is_wasm env && negb (p =? 1)
        then Err UnsupportedParamsError
        else Ok {| _parameters := params; encoding := enc |}
    | _, _, _, _, _, _, _ =>
        (* not reached: every argument passed its isinstance check *)
        Err (TypeError (default "" e))
    end.

(** [cls()]: every argument at its default. *)
Definition cls (env : Env) : result PasswordHasher :=
  __init__ env (VInt DEFAULT_TIME_COST) (VInt DEFAULT_MEMORY_COST)
    (VInt DEFAULT_PARALLELISM) (VInt DEFAULT_HASH_LENGTH)
    (VInt DEFAULT_RANDOM_SALT_LENGTH) (VStr (u "utf-8")) (VType Type_.ID).

Definition from_parameters (env : Env) (params : Parameters)
  : result PasswordHasher :=
  if is_wasm env && negb (parallelism params =? 1)
  then Err UnsupportedParamsError
  else
    do ph <- cls env;
    Ok (set_parameters ph params).


(** *** Hashing *)

(** The state of the system's random source. *)
Variable Rng : Type.

(** [os.urandom(n)] *)
Variable os_urandom : Z -> Rng -> result bytes * Rng.

(** [low_level.hash_secret(secret, salt, time_cost, memory_cost,
    parallelism, hash_len, type)] *)
Variable hash_secret :
  bytes -> bytes -> Z -> Z -> Z -> Z -> Type_.t -> result bytes.

(** Computations that may raise and may draw from the random source. *)
Definition io (A : Type) : Type := Rng -> result A * Rng.

Definition io_lift {A} (r : result A) : io A := fun rng => (r, rng).

Definition io_bind {A B} (m : io A) (k : A -> io B) : io B :=
  fun rng =>
    match m rng with
    | (Ok a, rng') => k a rng'
    | (Err e, rng') => (Err e, rng')
    end.

Notation "'io_do' x <- m ; k" := (io_bind m (fun x => k))
  (at level 10, x name, m at level 100, k at level 200,
   format "'[v' 'io_do'  x  <-  m ; '/' k ']'").

(** [salt or os.urandom(n)] *)
Definition salt_or_urandom (salt : option bytes) (n : Z) : io bytes :=
  if truthy_opt_bytes salt then io_lift (Ok (default "" salt))
  else os_urandom n.

Definition hash (self : PasswordHasher) (password : str_or_bytes)
    (salt : option bytes) : io pystr :=
  io_do secret <- io_lift (_ensure_bytes password (encoding self));
  io_do salt' <- salt_or_urandom salt (ph_salt_len self);
  io_do encoded <- io_lift
    (hash_secret secret salt' (ph_time_cost self) (ph_memory_cost self)
       (ph_parallelism self) (ph_hash_len self) (ph_type self));
  io_lift (ascii_decode encoded).

(** *** Verification *)

(** [low_level.verify_secret(hash, secret, type)] *)
Variable verify_secret : bytes -> bytes -> Type_.t -> result bool.

Definition verify (self : PasswordHasher) (hash password : str_or_bytes)
  : result bool :=
  do hash <- _ensure_bytes hash (u "ascii");
  match _header_to_type !! slice_to 9 hash with
  | None => Err InvalidHashError
  | Some hash_type =>
      do secret <- _ensure_bytes password (encoding self);
      verify_secret hash secret hash_type
  end.

(** *** Rehash decision *)

(** [_utils.extract_parameters(hash)] *)
Variable extract_parameters : pystr -> result Parameters.

Definition check_needs_rehash (self : PasswordHasher) (hash : str_or_bytes)
  : result bool :=
  do hash <- match hash with
             | Bytes b => ascii_decode b
             | Str s => Ok s
             end;
  do params <- extract_parameters hash;
  Ok (Parameters_neb (_parameters self) params).

End PasswordHasher.

(** ** The encoded-hash format (section 4.3 of the specification)

    [extract_parameters] belongs to [argon2._utils], which is not part of
    the source file.  The properties below take it as a parameter; this
    section writes the decoder the specification describes, to have one to
    run. *)

(** [s.split(sep)] on a byte string. *)
Fixpoint split_on (sep : ascii) (s : string) : list string :=
  match s with
  | EmptyString => [EmptyString]
  | String c s' =>
      if Ascii.eqb c sep then EmptyString :: split_on sep s'
      else match split_on sep s' with
           | h :: t => String c h :: t
           | [] => [String c EmptyString]
           end
  end.

Definition digit_value (c : ascii) : option N :=
  let n := N_of_ascii c in
  if ((48 <=? n) && (n <=? 57))%N then Some (n - 48)%N else None.

Fixpoint parse_digits (acc : N) (s : string) : option N :=
  match s with
  | EmptyString => Some acc
  | String c s' =>
      match digit_value c with
      | Some d => parse_digits (10 * acc + d)%N s'
      | None => None
      end
  end.

(** A non-empty run of decimal digits. *)
Definition parse_decimal (s : string) : option Z :=
  match s with
  | EmptyString => None
  | _ => Z.of_N <$> parse_digits 0%N s
  end.

(** A field [<key>=<decimal>]. *)
Definition parse_field (key : string) (s : string) : option Z :=
  if String.prefix (key +:+ "=") s
  then parse_decimal
         (String.substring (S (String.length key))
            (String.length s - S (String.length key)) s)
  else None.

(** The value of a character of the standard base64 alphabet. *)
Definition b64_value (c : ascii) : option N :=
  let n := N_of_ascii c in
  if ((65 <=? n) && (n <=? 90))%N then Some (n - 65)%N
  else if ((97 <=? n) && (n <=? 122))%N then Some (n - 71)%N
  else if ((48 <=? n) && (n <=? 57))%N then Some (n + 4)%N
  else if (n =? 43)%N then Some 62%N
  else if (n =? 47)%N then Some 63%N
  else None.

Fixpoint b64_values (s : string) : option (list N) :=
  match s with
  | EmptyString => Some []
  | String c s' =>
      match b64_value c, b64_values s' with
      | Some v, Some vs => Some (v :: vs)
      | _, _ => None
      end
  end.

(** Four sextets make three octets; a tail of two or three sextets makes one
    or two octets; a tail of one sextet is not an encoding. *)
Fixpoint sextets_to_octets (l : list N) : option (list N) :=
  match l with
  | [] => Some []
  | [_] => None
  | [a; b] => Some [(a * 4 + b / 16)%N]
  | [a; b; c] => Some [(a * 4 + b / 16)%N; ((b mod 16) * 16 + c / 4)%N]
  | a :: b :: c :: d :: rest =>
      cons (a * 4 + b / 16)%N
        <$> (cons ((b mod 16) * 16 + c / 4)%N
               <$> (cons ((c mod 4) * 64 + d)%N <$> sextets_to_octets rest))
  end.

Definition octets_to_bytes (l : list N) : bytes :=
  string_of_list_ascii (map ascii_of_N l).

Definition bytes_to_octets (b : bytes) : list N :=
  map N_of_ascii (list_ascii_of_string b).

(** Unpadded base64, decoding. *)
Definition b64_decode (s : string) : option bytes :=
  vs ← b64_values s;
  octets_to_bytes <$> sextets_to_octets vs.

Definition variant_of_name (s : string) : option Type_.t :=
  if String.eqb s "argon2i" then Some Type_.I
  else if String.eqb s "argon2d" then Some Type_.D
  else if String.eqb s "argon2id" then Some Type_.ID
  else None.

(** The transient value the codec produces and consumes. *)
Record EncodedHash : Type := mkEncodedHash {
  eh_variant : Type_.t;
  eh_version : Z;
  eh_memory_cost : Z;
  eh_time_cost : Z;
  eh_parallelism : Z;
  eh_salt : bytes;
  eh_raw_hash : bytes
}.

Definition decode_segments (parts : list string) : option EncodedHash :=
  match parts with
  | [lead; variant; ver; costs; salt; raw] =>
      match split_on "," costs with
      | [m; t; p] =>
          if String.eqb lead ""
          then
            ty ← variant_of_name variant;
            v ← parse_field "v" ver;
            mc ← parse_field "m" m;
            tc ← parse_field "t" t;
            pl ← parse_field "p" p;
            s ← b64_decode salt;
            h ← b64_decode raw;
            if (1 <=? mc) && (1 <=? tc) && (1 <=? pl)
            then Some {| eh_variant := ty; eh_version := v;
                         eh_memory_cost := mc; eh_time_cost := tc;
                         eh_parallelism := pl; eh_salt := s;
                         eh_raw_hash := h |}
            else None
          else None
      | _ => None
      end
  | _ => None
  end.

(** Modelled from the spec: [decode] of the encoded-hash codec (section
    4.3), which lives in a module that is not part of the source file.  It
    parses strictly and fails with [InvalidHashError] when the variant token
    is unrecognized, a segment is missing or out of order, a numeric field is
    not numeric or below 1, or a base64 segment has an invalid character. *)
Definition decode (text : pystr) : result EncodedHash :=
  match ascii_encode text with
  | Ok b =>
      match decode_segments (split_on "$" b) with
      | Some eh => Ok eh
      | None => Err InvalidHashError
      end
  | Err _ => Err InvalidHashError
  end.

(** Modelled from the spec: [extract_parameters] of [argon2._utils], which is
    not part of the source file: the [Parameters] of a decoded hash, the
    salt length being implicit in the encoded salt (section 3). *)
Definition extract_parameters_spec (hash : pystr) : result Parameters :=
  do eh <- decode hash;
  Ok {| type := eh_variant eh;
        version := eh_version eh;
        salt_len := Z.of_nat (String.length (eh_salt eh));
        hash_len := Z.of_nat (String.length (eh_raw_hash eh));
        time_cost := eh_time_cost eh;
        memory_cost := eh_memory_cost eh;
        parallelism := eh_parallelism eh |}.

Fixpoint octets_to_sextets (l : list N) : list N :=
  match l with
  | [] => []
  | [x] => [(x / 4)%N; ((x mod 4) * 16)%N]
  | [x; y] => [(x / 4)%N; ((x mod 4) * 16 + y / 16)%N; ((y mod 16) * 4)%N]
  | x :: y :: z :: rest =>
      (x / 4)%N :: ((x mod 4) * 16 + y / 16)%N
        :: ((y mod 16) * 4 + z / 64)%N :: (z mod 64)%N
        :: octets_to_sextets rest
  end.

Definition b64_char (v : N) : ascii :=
  ascii_of_N
    (if (v <? 26)%N then v + 65
     else if (v <? 52)%N then v + 71
     else if (v <? 62)%N then v - 4
     else if (v =? 62)%N then 43
     else 47)%N.

(** Unpadded base64, encoding. *)
Definition b64_encode (b : bytes) : string :=
  string_of_list_ascii (map b64_char (octets_to_sextets (bytes_to_octets b))).

Definition variant_name (t : Type_.t) : string :=
  match t with
  | Type_.I => "argon2i"
  | Type_.D => "argon2d"
  | Type_.ID => "argon2id"
  end.

Definition decimal (z : Z) : string :=
  NilZero.string_of_uint (N.to_uint (Z.to_N z)).

(** Modelled from the spec: [encode] of the encoded-hash codec (section
    4.3): the fields rendered in the fixed order of the format. *)
Definition encode (P : Parameters) (salt raw_hash : bytes) : bytes :=
  "$" +:+ variant_name (type P)
  +:+ "$v=" +:+ decimal (version P)
  +:+ "$m=" +:+ decimal (memory_cost P)
  +:+ ",t=" +:+ decimal (time_cost P)
  +:+ ",p=" +:+ decimal (parallelism P)
  +:+ "$" +:+ b64_encode salt
  +:+ "$" +:+ b64_encode raw_hash.

(** ** Instances of the collaborators

    The collaborators are parameters of the embedding.  These are instances
    to run it with: the profile, a fragment of Python's codec registry, a
    deterministic random source, and a primitive that honours the interface
    of section 6 around a stand-in for the memory-hard function. *)

(** Modelled from the spec: the low-memory profile of [argon2.profiles]
    (section 4.2), with the values of the scenario of section 8. *)
Definition rfc_9106_low_memory : Parameters :=
  {| type := Type_.ID; version := 19; salt_len := 16; hash_len := 32;
     time_cost := 3; memory_cost := 65536; parallelism := 4 |}.

Definition linux : Env :=
  {| sys_platform := "linux"; platform_machine := "x86_64" |}.

Definition pyodide : Env :=
  {| sys_platform := "emscripten"; platform_machine := "wasm32" |}.

(** A native interpreter whose [platform.machine] is patched. *)
Definition patched_wasm : Env :=
  {| sys_platform := "linux"; platform_machine := "wasm32" |}.

(** UTF-8: the octets of one code point; surrogates have none. *)
Definition utf8_octets (c : N) : option (list N) :=
  if (c <? 128)%N then Some [c]
  else if (c <? 2048)%N then Some [192 + c / 64; 128 + c mod 64]%N
  else if ((55296 <=? c) && (c <=? 57343))%N then None
  else if (c <? 65536)%N
       then Some [224 + c / 4096; 128 + (c / 64) mod 64; 128 + c mod 64]%N
  else if (c <? 1114112)%N
       then Some [240 + c / 262144; 128 + (c / 4096) mod 64;
                  128 + (c / 64) mod 64; 128 + c mod 64]%N
  else None.

Fixpoint utf8_encode (s : pystr) : result bytes :=
  match s with
  | [] => Ok EmptyString
  | c :: s' =>
      match utf8_octets c with
      | Some os => do b <- utf8_encode s'; Ok (octets_to_bytes os +:+ b)
      | None => Err UnicodeEncodeError
      end
  end.

(** The codecs ["utf-8"] and ["latin-1"]; other names are unknown. *)
Fixpoint latin1_encode (s : pystr) : result bytes :=
  match s with
  | [] => Ok EmptyString
  | c :: s' =>
      if (c <? 256)%N
      then do b <- latin1_encode s'; Ok (String (ascii_of_N c) b)
      else Err UnicodeEncodeError
  end.

Definition py_codecs (name : pystr) (s : pystr) : result bytes :=
  if decide (name = u "utf-8") then utf8_encode s
  else if decide (name = u "latin-1") then latin1_encode s
  else Err LookupError.

(** A deterministic random source: a linear congruential generator. *)
Definition lcg_next (seed : N) : N :=
  ((seed * 1103515245 + 12345) mod 2147483648)%N.

Fixpoint lcg_octets (n : nat) (seed : N) : list N * N :=
  match n with
  | O => ([], seed)
  | S n' =>
      let seed' := lcg_next seed in
      let '(os, seed'') := lcg_octets n' seed' in
      (((seed' / 65536) mod 256)%N :: os, seed'')
  end.

(** [os.urandom(n)]: [n] octets, or [ValueError] when [n] is negative. *)
Definition lcg_urandom (n : Z) (seed : N) : result bytes * N :=
  if n <? 0 then (Err ValueError, seed)
  else let '(os, seed') := lcg_octets (Z.to_nat n) seed in
       (Ok (octets_to_bytes os), seed').

(** A stand-in for the memory-hard function: some deterministic function of
    the inputs, [hash_len] octets long.  It is not Argon2. *)
Definition standin_kdf (secret salt : bytes) (t m p hash_len : Z)
    (ty : Type_.t) : bytes :=
  let mix := fold_left (fun acc o => (acc * 31 + o + 7) mod 2147483648)%N in
  let seed :=
    mix (bytes_to_octets secret ++ [255%N] ++ bytes_to_octets salt
         ++ [Z.to_N t; Z.to_N m; Z.to_N p;
             match ty with Type_.D => 0 | Type_.I => 1 | Type_.ID => 2 end%N]
        )%list 19%N in
  octets_to_bytes (fst (lcg_octets (Z.to_nat hash_len) seed)).

(** Modelled from the spec: the external primitive [compute] (section 6):
    it returns the encoded hash, or fails with [HashingError] when a cost is
    outside the accepted ranges (each at least 1, the memory at least eight
    blocks per lane; section 3). *)
Definition standin_hash_secret (secret salt : bytes)
    (time_cost memory_cost parallelism hash_len : Z) (ty : Type_.t)
  : result bytes :=
  if (1 <=? time_cost) && (1 <=? parallelism) && (1 <=? hash_len)
     && (8 * parallelism <=? memory_cost)
  then
    Ok (encode {| type := ty; version := 19;
                  salt_len := Z.of_nat (String.length salt);
                  hash_len := hash_len; time_cost := time_cost;
                  memory_cost := memory_cost; parallelism := parallelism |}
          salt
          (standin_kdf secret salt time_cost memory_cost parallelism
             hash_len ty))
  else Err HashingError.

(** Modelled from the spec: the external primitive [verify] (section 6): it
    returns true, or fails with [VerifyMismatchError] on a wrong password
    and with [VerificationError] otherwise, as when its own decoding of the
    hash fails (section 4.4). *)
Definition standin_verify_secret (hash secret : bytes) (ty : Type_.t)
  : result bool :=
  match decode_segments (split_on "$" hash) with
  | None => Err VerificationError
  | Some eh =>
      if Type_.eqb (eh_variant eh) ty
      then
        if String.eqb
             (standin_kdf secret (eh_salt eh) (eh_time_cost eh)
                (eh_memory_cost eh) (eh_parallelism eh)
                (Z.of_nat (String.length (eh_raw_hash eh))) ty)
             (eh_raw_hash eh)
        then Ok true
        else Err VerifyMismatchError
      else Err VerificationError
  end.

(** A stored hash, and the parameters it was made with. *)
Definition sample_hash : string :=
  "$argon2id$v=19$m=65536,t=3,p=4$c29tZXNhbHQ$RdescudvJCsgt3ub+b+dWRWJTmaaJObG".

Definition sample_parameters : Parameters :=
  {| type := Type_.ID; version := 19; salt_len := 8; hash_len := 24;
     time_cost := 3; memory_cost := 65536; parallelism := 4 |}.

Definition sample_hasher : PasswordHasher :=
  {| _parameters := sample_parameters; encoding := u "utf-8" |}.

(** The same hash cut after its cost segment, and without its salt
    segment. *)
Definition truncated_hash : string := "$argon2id$v=19$m=65536,t=3,p=4$".

Definition saltless_hash : string :=
  "$argon2id$v=19$m=65536,t=3,p=4$RdescudvJCsgt3ub+b+dWRWJTmaaJObG".

(** A foreign header, as ASCII text; the same with a character outside
    ASCII, as text and as bytes. *)
Definition foreign_hash : string := "$bcrypt$2b$12$abcdefgh".

Definition non_ascii_text : pystr := (u "$bcrypt$" ++ [233%N])%list.

Definition non_ascii_bytes : string :=
  "$bcrypt$" +:+ String (ascii_of_N 233) EmptyString.

(** ** Vocabulary of the properties *)

(** [text_of hash txt]: the argument [hash], given as text or as ASCII
    bytes, reads [txt]. *)
Inductive text_of : str_or_bytes -> pystr -> Prop :=
| text_of_str (s : pystr) : text_of (Str s) s
| text_of_bytes (b : bytes) (s : pystr) :
    ascii_encode s = Ok b -> text_of (Bytes b) s.

(** [ascii_bytes_of hash b]: the argument [hash], given as bytes or as ASCII
    text, has the bytes [b]. *)
Inductive ascii_bytes_of : str_or_bytes -> bytes -> Prop :=
| ascii_bytes_of_bytes (b : bytes) : ascii_bytes_of (Bytes b) b
| ascii_bytes_of_str (s : pystr) (b : bytes) :
    ascii_encode s = Ok b -> ascii_bytes_of (Str s) b.

(** The specification's [variant_of_header] (section 4.3), in its words: the
    variant whose prefix token the bytes start with, if any. *)
Definition variant_of_header (b : bytes) : option Type_.t :=
  if String.prefix "$argon2i$" b then Some Type_.I
  else if String.prefix "$argon2d$" b then Some Type_.D
  else if String.prefix "$argon2id" b then Some Type_.ID
  else None.

(** [one_field_changed P Q]: [Q] is [P] with one field given another
    value. *)
Inductive one_field_changed (P : Parameters) : Parameters -> Prop :=
| changed_type (x : Type_.t) : x <> type P ->
    one_field_changed P
      (mkParameters x (version P) (salt_len P) (hash_len P) (time_cost P)
         (memory_cost P) (parallelism P))
| changed_version (x : Z) : x <> version P ->
    one_field_changed P
      (mkParameters (type P) x (salt_len P) (hash_len P) (time_cost P)
         (memory_cost P) (parallelism P))
| changed_salt_len (x : Z) : x <> salt_len P ->
    one_field_changed P
      (mkParameters (type P) (version P) x (hash_len P) (time_cost P)
         (memory_cost P) (parallelism P))
| changed_hash_len (x : Z) : x <> hash_len P ->
    one_field_changed P
      (mkParameters (type P) (version P) (salt_len P) x (time_cost P)
         (memory_cost P) (parallelism P))
| changed_time_cost (x : Z) : x <> time_cost P ->
    one_field_changed P
      (mkParameters (type P) (version P) (salt_len P) (hash_len P) x
         (memory_cost P) (parallelism P))
| changed_memory_cost (x : Z) : x <> memory_cost P ->
    one_field_changed P
      (mkParameters (type P) (version P) (salt_len P) (hash_len P)
         (time_cost P) x (parallelism P))
| changed_parallelism (x : Z) : x <> parallelism P ->
    one_field_changed P
      (mkParameters (type P) (version P) (salt_len P) (hash_len P)
         (time_cost P) (memory_cost P) x).

(** The argument [name=(value, class)] passes its [isinstance] check. *)
Definition arg_ok (a : string * PyVal * PyClass) : bool :=
  isinstance a.1.2 a.2.

(** Every argument of the constructor passes its [isinstance] check. *)
Definition well_typed_args
    (time_cost memory_cost parallelism hash_len salt_len encoding type : PyVal)
  : bool :=
  isinstance time_cost c_int && isinstance memory_cost c_int
  && isinstance parallelism c_int && isinstance hash_len c_int
  && isinstance salt_len c_int && isinstance encoding c_str
  && isinstance type c_Type.

(** Modelled from the spec: the interface of the external primitive
    [verify_secret] of [argon2.low_level], which is not part of the source
    file (section 6): it returns true or fails with [VerifyMismatchError] or
    [VerificationError]. *)
Definition verify_secret_interface
    (verify_secret : bytes -> bytes -> Type_.t -> result bool) : Prop :=
  forall hash secret ty,
    verify_secret hash secret ty = Ok true
    \/ verify_secret hash secret ty = Err VerifyMismatchError
    \/ verify_secret hash secret ty = Err VerificationError.

(** Modelled from the spec: the interface of the external primitive
    [hash_secret] of [argon2.low_level], which is not part of the source
    file (section 6): it returns the encoded hash or fails with
    [HashingError]. *)
Definition hash_secret_interface
    (hash_secret : bytes -> bytes -> Z -> Z -> Z -> Z -> Type_.t -> result bytes)
  : Prop :=
  forall secret salt t m p l ty e,
    hash_secret secret salt t m p l ty = Err e -> e = HashingError.

(** The interface of the random source (section 6): [random_bytes(n)]
    returns [n] bytes. *)
Definition urandom_interface {Rng : Type}
    (os_urandom : Z -> Rng -> result bytes * Rng) : Prop :=
  forall n rng b rng',
    os_urandom n rng = (Ok b, rng') -> Z.of_nat (String.length b) = n.

(** Modelled from the spec: the interface of [extract_parameters] of
    [argon2._utils], which is not part of the source file (section 4.3):
    when it fails, it fails with [InvalidHashError]. *)
Definition extract_parameters_interface
    (extract_parameters : pystr -> result Parameters) : Prop :=
  forall hash e, extract_parameters hash = Err e -> e = InvalidHashError.

(** A hasher with the low-memory profile and the default encoding. *)
Definition low_memory_hasher : PasswordHasher :=
  {| _parameters := rfc_9106_low_memory; encoding := u "utf-8" |}.

(** * Properties *)

(** ** Values *)

Lemma Type_eqb_eq a b : Type_.eqb a b = true <-> a = b.
Proof. destruct a, b; simpl; split; congruence. Qed.

Lemma Parameters_eqb_eq P Q : Parameters_eqb P Q = true <-> P = Q.
Proof.
  unfold Parameters_eqb. destruct P, Q; simpl.
  rewrite !andb_true_iff, !Z.eqb_eq, Type_eqb_eq.
  split.
  - intros [[[[[[-> ->] ->] ->] ->] ->] ->]. reflexivity.
  - intros H. injection H as -> -> -> -> -> -> ->. tauto.
Qed.

Lemma Parameters_neb_true P Q : Parameters_neb P Q = true <-> P <> Q.
Proof.
  unfold Parameters_neb. rewrite negb_true_iff, <- not_true_iff_false.
  now rewrite Parameters_eqb_eq.
Qed.

Lemma Parameters_neb_false P Q : Parameters_neb P Q = false <-> P = Q.
Proof.
  unfold Parameters_neb. rewrite negb_false_iff. apply Parameters_eqb_eq.
Qed.

Lemma one_field_changed_neq P Q : one_field_changed P Q -> Q <> P.
Proof.
  intros H E. subst Q. destruct P as [ty v sl hl tc mc p].
  inversion H; simpl in *; congruence.
Qed.

(** ** The ["ascii"] codec *)

Lemma ascii_encode_decode s b : ascii_encode s = Ok b -> ascii_decode b = Ok s.
Proof.
  revert b. induction s as [|c s IH]; intros b; simpl.
  - now intros [= <-].
  - destruct (N.ltb_spec c 128) as [Hc|Hc]; [|discriminate].
    destruct (ascii_encode s) as [b'|e]; simpl; [|discriminate].
    intros [= <-]. simpl.
    rewrite N_ascii_embedding by lia.
    destruct (N.ltb_spec c 128); [|lia].
    now rewrite (IH b' eq_refl).
Qed.

Lemma ascii_decode_encode b s : ascii_decode b = Ok s -> ascii_encode s = Ok b.
Proof.
  revert s. induction b as [|c b IH]; intros s; simpl.
  - now intros [= <-].
  - destruct (N.ltb_spec (N_of_ascii c) 128) as [Hc|Hc]; [|discriminate].
    destruct (ascii_decode b) as [s'|e]; simpl; [|discriminate].
    intros [= <-]. simpl.
    destruct (N.ltb_spec (N_of_ascii c) 128); [|lia].
    now rewrite (IH s' eq_refl), ascii_N_embedding.
Qed.

(** ** The header table *)

Lemma header_lookup_Some k t :
  _header_to_type !! k = Some t <->
  (k = "$argon2i$" /\ t = Type_.I)
  \/ (k = "$argon2d$" /\ t = Type_.D)
  \/ (k = "$argon2id" /\ t = Type_.ID).
Proof.
  unfold _header_to_type.
  rewrite !lookup_insert_Some, lookup_empty. split.
  - intros [[<- <-]|[_ [[<- <-]|[_ [[<- <-]|[_ H]]]]]]; auto; discriminate.
  - intros [[-> ->]|[[-> ->]|[-> ->]]].
    + left; done.
    + right; split; [done|]. left; done.
    + right; split; [done|]. right; split; [done|]. left; done.
Qed.

Lemma slice_to_prefix tok b :
  slice_to (String.length tok) b = tok <-> String.prefix tok b = true.
Proof.
  unfold slice_to. revert b.
  induction tok as [|a tok IH]; intros b; simpl.
  - destruct b; simpl; tauto.
  - destruct b as [|c b]; simpl.
    + split; discriminate.
    + destruct (ascii_dec a c) as [->|Hne].
      * rewrite <- IH. split; [now intros [= ->] | now intros ->].
      * split; [intros [= ? ?]; congruence | discriminate].
Qed.

(** The table lookup on the first nine bytes is the prefix test of the
    specification. *)
Lemma header_dispatch b :
  _header_to_type !! slice_to 9 b = variant_of_header b.
Proof.
  unfold variant_of_header.
  destruct (String.prefix "$argon2i$" b) eqn:Hi.
  { apply header_lookup_Some. left. split; [|reflexivity].
    now apply (slice_to_prefix "$argon2i$"). }
  destruct (String.prefix "$argon2d$" b) eqn:Hd.
  { apply header_lookup_Some. right; left. split; [|reflexivity].
    now apply (slice_to_prefix "$argon2d$"). }
  destruct (String.prefix "$argon2id" b) eqn:Hid.
  { apply header_lookup_Some. right; right. split; [|reflexivity].
    now apply (slice_to_prefix "$argon2id"). }
  destruct (_header_to_type !! slice_to 9 b) as [t|] eqn:E; [|reflexivity].
  apply header_lookup_Some in E.
  destruct E as [[E _]|[[E _]|[E _]]];
    [apply (slice_to_prefix "$argon2i$") in E
    |apply (slice_to_prefix "$argon2d$") in E
    |apply (slice_to_prefix "$argon2id") in E]; congruence.
Qed.

(** ** Verification and the rehash decision *)

Section VerifyProperties.

Variable codecs_encode : pystr -> pystr -> result bytes.
Variable verify_secret : bytes -> bytes -> Type_.t -> result bool.
Variable extract_parameters : pystr -> result Parameters.

Lemma ensure_bytes_ascii hash b :
  ascii_bytes_of hash b -> _ensure_bytes codecs_encode hash (u "ascii") = Ok b.
Proof.
  intros [b'|s b' Hs]; simpl; [reflexivity|].
  unfold str_encode. now rewrite decide_True by reflexivity.
Qed.

Lemma hash_text_decode hash txt :
  text_of hash txt ->
  match hash with Bytes b => ascii_decode b | Str s => Ok s end = Ok txt.
Proof.
  intros [s|b s Hs]; [reflexivity|]. now apply ascii_encode_decode.
Qed.

(** What [verify] does once the hash is a byte string. *)
Lemma verify_unfold self hash password b :
  ascii_bytes_of hash b ->
  verify codecs_encode verify_secret self hash password =
  match variant_of_header b with
  | None => Err InvalidHashError
  | Some t =>
      do secret <- _ensure_bytes codecs_encode password (encoding self);
      verify_secret b secret t
  end.
Proof.
  intros Hb. unfold verify.
  rewrite (ensure_bytes_ascii _ _ Hb). simpl.
  now rewrite header_dispatch.
Qed.

Lemma check_needs_rehash_unfold self hash txt :
  text_of hash txt ->
  check_needs_rehash extract_parameters self hash =
  do params <- extract_parameters txt;
  Ok (Parameters_neb (_parameters self) params).
Proof.
  intros Ht. unfold check_needs_rehash.
  now rewrite (hash_text_decode _ _ Ht).
Qed.

(** C1. For every hasher and every well-formed encoded hash (text, or ASCII
    bytes, that the decoder accepts with parameters [P]),
    [check_needs_rehash] returns whether the hasher's [Parameters] differ
    from [P], every field compared: true exactly when they differ, false
    when they are equal, and true for a hasher that holds [P] with any
    single field changed. *)
Theorem check_needs_rehash_correct self hash txt P :
  text_of hash txt ->
  extract_parameters txt = Ok P ->
  check_needs_rehash extract_parameters self hash
    = Ok (negb (Parameters_eqb (_parameters self) P))
  /\ (check_needs_rehash extract_parameters self hash = Ok true
      <-> _parameters self <> P)
  /\ (check_needs_rehash extract_parameters self hash = Ok false
      <-> _parameters self = P)
  /\ (forall Q, one_field_changed P Q ->
        check_needs_rehash extract_parameters (set_parameters self Q) hash
        = Ok true).
Proof.
  intros Ht HP.
  assert (E : forall ph, check_needs_rehash extract_parameters ph hash
                         = Ok (Parameters_neb (_parameters ph) P)).
  { intros ph. rewrite (check_needs_rehash_unfold _ _ _ Ht), HP. reflexivity. }
  repeat split.
  - apply E.
  - rewrite E. intros [= H]. now apply Parameters_neb_true.
  - rewrite E. intros H. f_equal. now apply Parameters_neb_true.
  - rewrite E. intros [= H]. now apply Parameters_neb_false.
  - rewrite E. intros H. f_equal. now apply Parameters_neb_false.
  - intros Q HQ. rewrite E. f_equal. apply Parameters_neb_true.
    simpl. now apply one_field_changed_neq.
Qed.

(** C2. When the leading bytes of the hash match none of the three variant
    tokens, [verify] raises [InvalidHashError] whatever the primitive and the
    password are: the primitive is not consulted.  When they match a token,
    [verify] is the primitive's call on the hash bytes, the password bytes
    and the token's variant. *)
Theorem verify_header_dispatch self hash password b :
  ascii_bytes_of hash b ->
  (String.prefix "$argon2i$" b = false ->
   String.prefix "$argon2d$" b = false ->
   String.prefix "$argon2id" b = false ->
   verify codecs_encode verify_secret self hash password
   = Err InvalidHashError)
  /\ (forall tok t secret,
        In (tok, t) [("$argon2i$", Type_.I); ("$argon2d$", Type_.D);
                     ("$argon2id", Type_.ID)] ->
        String.prefix tok b = true ->
        _ensure_bytes codecs_encode password (encoding self) = Ok secret ->
        verify codecs_encode verify_secret self hash password
        = verify_secret b secret t).
Proof.
  intros Hb. rewrite (verify_unfold _ _ _ _ Hb). unfold variant_of_header.
  split.
  - now intros -> -> ->.
  - intros tok t secret Hin Htok Hpw. rewrite Hpw. simpl in Hin |- *.
    destruct Hin as [E|[E|[E|Hf]]]; [| | |destruct Hf];
      injection E as <- <-.
    + now rewrite Htok.
    + destruct (String.prefix "$argon2i$" b) eqn:Hi; [|now rewrite Htok].
      apply (slice_to_prefix "$argon2i$") in Hi.
      apply (slice_to_prefix "$argon2d$") in Htok. simpl in Hi, Htok.
      congruence.
    + destruct (String.prefix "$argon2i$" b) eqn:Hi.
      { apply (slice_to_prefix "$argon2i$") in Hi.
        apply (slice_to_prefix "$argon2id") in Htok. simpl in Hi, Htok.
        congruence. }
      destruct (String.prefix "$argon2d$" b) eqn:Hd; [|now rewrite Htok].
      apply (slice_to_prefix "$argon2d$") in Hd.
      apply (slice_to_prefix "$argon2id") in Htok. simpl in Hd, Htok.
      congruence.
Qed.

Lemma ensure_bytes_ascii_inv hash b :
  _ensure_bytes codecs_encode hash (u "ascii") = Ok b -> ascii_bytes_of hash b.
Proof.
  destruct hash as [s|b']; simpl.
  - unfold str_encode. rewrite decide_True by reflexivity.
    intros H. now constructor.
  - intros [= <-]. constructor.
Qed.

(** C8. Given a primitive that honours its interface (it returns true or
    fails), [verify] returns the literal true or raises, and never a false
    value.  A return means that verification succeeded: [verify] returns
    exactly when the hash has bytes with a recognized token, the password
    has bytes, and the primitive, called on these bytes and the token's
    variant, returned true. *)
Theorem verify_true_or_raises self hash password :
  verify_secret_interface verify_secret ->
  (verify codecs_encode verify_secret self hash password = Ok true
   \/ exists e, verify codecs_encode verify_secret self hash password = Err e)
  /\ (forall r,
        verify codecs_encode verify_secret self hash password = Ok r ->
        r = true
        /\ exists b secret t,
             ascii_bytes_of hash b
             /\ variant_of_header b = Some t
             /\ _ensure_bytes codecs_encode password (encoding self)
                = Ok secret
             /\ verify_secret b secret t = Ok true)
  /\ (forall b secret t,
        ascii_bytes_of hash b ->
        variant_of_header b = Some t ->
        _ensure_bytes codecs_encode password (encoding self) = Ok secret ->
        verify_secret b secret t = Ok true ->
        verify codecs_encode verify_secret self hash password = Ok true).
Proof.
  intros Hvs.
  assert (Hinv : forall r,
             verify codecs_encode verify_secret self hash password = Ok r ->
             r = true
             /\ exists b secret t,
                  ascii_bytes_of hash b
                  /\ variant_of_header b = Some t
                  /\ _ensure_bytes codecs_encode password (encoding self)
                     = Ok secret
                  /\ verify_secret b secret t = Ok true).
  { intros r. unfold verify.
    destruct (_ensure_bytes codecs_encode hash (u "ascii")) as [b|e] eqn:Hb;
      simpl; [|discriminate].
    rewrite header_dispatch.
    destruct (variant_of_header b) as [t|] eqn:Ht; [|discriminate].
    destruct (_ensure_bytes codecs_encode password (encoding self))
      as [secret|e] eqn:Hp; simpl; [|discriminate].
    intros Hr.
    destruct (Hvs b secret t) as [E | [E | E]]; rewrite E in Hr;
      try discriminate.
    injection Hr as <-. split; [reflexivity|].
    exists b, secret, t. repeat split; try assumption.
    now apply ensure_bytes_ascii_inv. }
  split; [|split].
  - destruct (verify codecs_encode verify_secret self hash password)
      as [r|e] eqn:E.
    + left. f_equal. apply (Hinv r). reflexivity.
    + right. now exists e.
  - exact Hinv.
  - intros b secret t Hb Ht Hp Hok.
    rewrite (verify_unfold _ _ _ _ Hb), Ht, Hp. simpl. exact Hok.
Qed.

(** C6, as the code has it.  [check_needs_rehash] raises [InvalidHashError]
    on every input (text, or ASCII bytes) that the decoder rejects.  [verify]
    raises [InvalidHashError] on every input (bytes, or ASCII text) whose
    leading bytes match no variant token; on an input with a recognized
    token, malformed or not, it raises what the primitive raises, which by
    the primitive's interface is not [InvalidHashError]. *)
Theorem malformed_hash_errors self hash :
  extract_parameters_interface extract_parameters ->
  (forall txt e, text_of hash txt -> extract_parameters txt = Err e ->
     check_needs_rehash extract_parameters self hash = Err InvalidHashError)
  /\ (forall b password, ascii_bytes_of hash b ->
        variant_of_header b = None ->
        verify codecs_encode verify_secret self hash password
        = Err InvalidHashError)
  /\ (forall b t password secret, ascii_bytes_of hash b ->
        variant_of_header b = Some t ->
        _ensure_bytes codecs_encode password (encoding self) = Ok secret ->
        verify codecs_encode verify_secret self hash password
        = verify_secret b secret t
        /\ (verify_secret_interface verify_secret ->
            verify codecs_encode verify_secret self hash password
            <> Err InvalidHashError)).
Proof.
  intros Hdec. split; [|split].
  - intros txt e Ht He.
    rewrite (check_needs_rehash_unfold _ _ _ Ht), He. simpl.
    now rewrite (Hdec _ _ He).
  - intros b password Hb Hv. now rewrite (verify_unfold _ _ _ _ Hb), Hv.
  - intros b t password secret Hb Hv Hpw.
    rewrite (verify_unfold _ _ _ _ Hb), Hv, Hpw. simpl.
    split; [reflexivity|]. intros Hvs.
    destruct (Hvs b secret t) as [-> | [-> | ->]]; discriminate.
Qed.

End VerifyProperties.

(** ** Construction *)

Lemma type_errors_nil kw :
  List.concat (map type_error kw) = [] <-> forallb arg_ok kw = true.
Proof.
  induction kw as [|[[name v] c] kw IH]; simpl; [tauto|].
  unfold arg_ok at 1. simpl. destruct (isinstance v c); simpl.
  - exact IH.
  - split; discriminate.
Qed.

Lemma type_errors_quoted kw :
  Forall (fun e => exists r, e = String "'" r) (List.concat (map type_error kw)).
Proof.
  induction kw as [|[[name v] c] kw IH]; simpl; [constructor|].
  destruct (isinstance v c); simpl; [exact IH|].
  constructor; [|exact IH]. eexists. reflexivity.
Qed.

(** [_check_types] returns [None] when every argument passes, and a
    non-empty message otherwise. *)
Lemma check_types_spec kw :
  match _check_types kw with
  | None => forallb arg_ok kw = true
  | Some msg => forallb arg_ok kw = false /\ msg <> ""
  end.
Proof.
  unfold _check_types.
  pose proof (type_errors_nil kw) as Hnil.
  pose proof (type_errors_quoted kw) as Hq.
  destruct (List.concat (map type_error kw)) as [|e es].
  - now apply Hnil.
  - split.
    + apply not_true_is_false. intros H. apply Hnil in H. discriminate.
    + inversion Hq as [|? ? [r ->] _]; subst.
      destruct es; simpl; discriminate.
Qed.

Lemma check_types_truthy kw :
  truthy_opt_str (_check_types kw) = negb (forallb arg_ok kw).
Proof.
  pose proof (check_types_spec kw) as H.
  destruct (_check_types kw) as [msg|]; simpl.
  - destruct H as [-> Hmsg]. destruct msg; [congruence|reflexivity].
  - now rewrite H.
Qed.

Lemma well_typed_args_forallb tc mc p hl sl enc ty :
  well_typed_args tc mc p hl sl enc ty =
  forallb arg_ok
    [("time_cost", tc, c_int); ("memory_cost", mc, c_int);
     ("parallelism", p, c_int); ("hash_len", hl, c_int);
     ("salt_len", sl, c_int); ("encoding", enc, c_str);
     ("type", ty, c_Type)].
Proof.
  unfold well_typed_args, arg_ok. simpl.
  rewrite andb_true_r, <- !andb_assoc. reflexivity.
Qed.

Lemma isinstance_int v : isinstance v c_int = true -> is_Some (as_int v).
Proof. destruct v; simpl; intros; try discriminate; eauto. Qed.

Lemma isinstance_str v : isinstance v c_str = true -> is_Some (as_str v).
Proof. destruct v; simpl; intros; try discriminate; eauto. Qed.

Lemma isinstance_Type v : isinstance v c_Type = true -> is_Some (as_Type v).
Proof. destruct v; simpl; intros; try discriminate; eauto. Qed.

(** The outcome of [__init__] on ill-typed arguments. *)
Lemma init_ill_typed env tc mc p hl sl enc ty :
  well_typed_args tc mc p hl sl enc ty = false ->
  exists msg, msg <> ""
    /\ __init__ env tc mc p hl sl enc ty = Err (TypeError msg).
Proof.
  intros H. rewrite well_typed_args_forallb in H. unfold __init__.
  rewrite check_types_truthy, H. simpl.
  match goal with |- context [_check_types ?kw] =>
    pose proof (check_types_spec kw) as Hs; destruct (_check_types kw) as [msg|]
  end.
  - exists msg. split; [apply Hs|reflexivity].
  - congruence.
Qed.

(** The outcome of [__init__] on well-typed arguments. *)
Lemma init_well_typed env tc mc p hl sl enc ty :
  well_typed_args tc mc p hl sl enc ty = true ->
  exists tc' mc' p' hl' sl' enc' ty',
    as_int tc = Some tc' /\ as_int mc = Some mc' /\ as_int p = Some p'
    /\ as_int hl = Some hl' /\ as_int sl = Some sl'
    /\ as_str enc = Some enc' /\ as_Type ty = Some ty'
    /\ __init__ env tc mc p hl sl enc ty =
       if is_wasm env && negb (p' =? 1)
       then Err UnsupportedParamsError
       else Ok {| _parameters :=
                    {| type := ty'; version := 19; salt_len := sl';
                       hash_len := hl'; time_cost := tc';
                       memory_cost := mc'; parallelism := p' |};
                  encoding := enc' |}.
Proof.
  intros H. unfold __init__.
  rewrite check_types_truthy, <- well_typed_args_forallb, H. simpl.
  unfold well_typed_args in H. rewrite !andb_true_iff in H.
  destruct H as [[[[[[Htc Hmc] Hp] Hhl] Hsl] Henc] Hty].
  destruct (isinstance_int _ Htc) as [tc' ->].
  destruct (isinstance_int _ Hmc) as [mc' ->].
  destruct (isinstance_int _ Hp) as [p' ->].
  destruct (isinstance_int _ Hhl) as [hl' ->].
  destruct (isinstance_int _ Hsl) as [sl' ->].
  destruct (isinstance_str _ Henc) as [enc' ->].
  destruct (isinstance_Type _ Hty) as [ty' ->].
  exists tc', mc', p', hl', sl', enc', ty'. repeat split; reflexivity.
Qed.

Lemma is_wasm_iff env :
  is_wasm env = true <->
  sys_platform env = "emscripten"
  \/ platform_machine env = "wasm32" \/ platform_machine env = "wasm64".
Proof.
  unfold is_wasm. simpl.
  rewrite !orb_true_iff, !String.eqb_eq. intuition discriminate.
Qed.

(** C3, as the code has it.  When some configuration argument of the
    constructor has the wrong type, construction fails with [TypeError],
    carrying a non-empty message; it does not fail with
    [InvalidParameterError]. *)
Theorem init_wrong_type_raises_TypeError env tc mc p hl sl enc ty :
  well_typed_args tc mc p hl sl enc ty = false ->
  (exists msg, msg <> ""
     /\ __init__ env tc mc p hl sl enc ty = Err (TypeError msg))
  /\ __init__ env tc mc p hl sl enc ty <> Err InvalidParameterError.
Proof.
  intros H. destruct (init_ill_typed env _ _ _ _ _ _ _ H) as (msg & Hm & E).
  split; [now exists msg|]. rewrite E. discriminate.
Qed.

(** C4. With well-typed arguments and [parallelism=p]: when [p] is not 1,
    construction raises [UnsupportedParamsError] in a constrained runtime and
    succeeds in a normal one; when [p] is 1 it succeeds in both. *)
Theorem init_platform_rule env tc mc p hl sl enc ty :
  well_typed_args tc mc (VInt p) hl sl enc ty = true ->
  (p <> 1 -> is_wasm env = true ->
   __init__ env tc mc (VInt p) hl sl enc ty = Err UnsupportedParamsError)
  /\ (p <> 1 -> is_wasm env = false ->
      exists ph, __init__ env tc mc (VInt p) hl sl enc ty = Ok ph
                 /\ ph_parallelism ph = p)
  /\ (p = 1 ->
      exists ph, __init__ env tc mc (VInt p) hl sl enc ty = Ok ph
                 /\ ph_parallelism ph = 1).
Proof.
  intros H.
  destruct (init_well_typed env _ _ _ _ _ _ _ H)
    as (tc' & mc' & p' & hl' & sl' & enc' & ty' & _ & _ & Hp & _ & _ & _ & _ & E).
  injection Hp as <-. rewrite E. clear E. repeat split.
  - intros Hne ->. simpl. destruct (Z.eqb_spec p 1); [contradiction|reflexivity].
  - intros _ ->. simpl. eexists. split; reflexivity.
  - intros ->. rewrite andb_false_r. eexists. split; reflexivity.
Qed.

Section Defaults.

Variable RFC_9106_LOW_MEMORY : Parameters.

(** [cls()] in the runtime [env], the module having been imported in the
    runtime [boot]. *)
Lemma cls_unfold boot env :
  cls RFC_9106_LOW_MEMORY boot env =
  if is_wasm env && negb (DEFAULT_PARALLELISM RFC_9106_LOW_MEMORY boot =? 1)
  then Err UnsupportedParamsError
  else Ok {| _parameters :=
               {| type := Type_.ID; version := 19;
                  salt_len := salt_len RFC_9106_LOW_MEMORY;
                  hash_len := hash_len RFC_9106_LOW_MEMORY;
                  time_cost := time_cost RFC_9106_LOW_MEMORY;
                  memory_cost := memory_cost RFC_9106_LOW_MEMORY;
                  parallelism := DEFAULT_PARALLELISM RFC_9106_LOW_MEMORY boot |};
             encoding := u "utf-8" |}.
Proof. reflexivity. Qed.

(** In the runtime the module was imported in, [cls()] succeeds. *)
Lemma cls_same_runtime runtime :
  exists ph, cls RFC_9106_LOW_MEMORY runtime runtime = Ok ph
             /\ encoding ph = u "utf-8".
Proof.
  rewrite cls_unfold. unfold DEFAULT_PARALLELISM.
  destruct (is_wasm runtime); simpl; eexists; split; reflexivity.
Qed.

(** C5. In a process (one runtime, at import and at the call),
    [from_parameters P] raises [UnsupportedParamsError] when the runtime is
    constrained and [P.parallelism] is not 1, and otherwise returns a hasher
    that holds [P]; no argument of [P] goes through the type validation. *)
Theorem from_parameters_platform_rule runtime P :
  (is_wasm runtime = true -> parallelism P <> 1 ->
   from_parameters RFC_9106_LOW_MEMORY runtime runtime P
   = Err UnsupportedParamsError)
  /\ (~ (is_wasm runtime = true /\ parallelism P <> 1) ->
      exists ph, from_parameters RFC_9106_LOW_MEMORY runtime runtime P = Ok ph
                 /\ _parameters ph = P).
Proof.
  unfold from_parameters. split.
  - intros -> Hp. simpl.
    destruct (Z.eqb_spec (parallelism P) 1); [contradiction|reflexivity].
  - intros Hn.
    destruct (is_wasm runtime && negb (parallelism P =? 1)) eqn:E.
    + apply andb_true_iff in E as [Hw Hp]. exfalso. apply Hn. split; [exact Hw|].
      apply negb_true_iff, Z.eqb_neq in Hp. exact Hp.
    + destruct (cls_same_runtime runtime) as (ph & -> & _). simpl.
      eexists. split; reflexivity.
Qed.

(** C10. Whatever the runtimes at import and at the call, a hasher that
    [from_parameters P] returns has the default encoding ["utf-8"]; the call
    raises only [UnsupportedParamsError], and only in a constrained
    runtime. *)
Theorem from_parameters_encoding boot env P :
  match from_parameters RFC_9106_LOW_MEMORY boot env P with
  | Ok ph => encoding ph = u "utf-8" /\ _parameters ph = P
  | Err e => e = UnsupportedParamsError /\ is_wasm env = true
  end.
Proof.
  unfold from_parameters.
  destruct (is_wasm env && negb (parallelism P =? 1)) eqn:E.
  - apply andb_true_iff in E as [Hw _]. now split.
  - rewrite cls_unfold.
    destruct (is_wasm env && negb (DEFAULT_PARALLELISM _ boot =? 1)) eqn:E'.
    + apply andb_true_iff in E' as [Hw _]. now split.
    + simpl. now split.
Qed.

End Defaults.

(** ** Hashing *)

Section HashProperties.

Variable codecs_encode : pystr -> pystr -> result bytes.
Variable Rng : Type.
Variable os_urandom : Z -> Rng -> result bytes * Rng.
Variable hash_secret :
  bytes -> bytes -> Z -> Z -> Z -> Z -> Type_.t -> result bytes.

(** [hash], one step at a time. *)
Lemma hash_unfold self password salt rng :
  hash codecs_encode Rng os_urandom hash_secret self password salt rng =
  match _ensure_bytes codecs_encode password (encoding self) with
  | Err e => (Err e, rng)
  | Ok secret =>
      match salt_or_urandom Rng os_urandom salt
              (salt_len (_parameters self)) rng with
      | (Err e, rng') => (Err e, rng')
      | (Ok salt', rng') =>
          (do encoded <- hash_secret secret salt'
                           (time_cost (_parameters self))
                           (memory_cost (_parameters self))
                           (parallelism (_parameters self))
                           (hash_len (_parameters self))
                           (type (_parameters self));
           ascii_decode encoded, rng')
      end
  end.
Proof.
  unfold hash, io_bind, io_lift, ph_salt_len.
  destruct (_ensure_bytes codecs_encode password (encoding self)); [|reflexivity].
  destruct (salt_or_urandom Rng os_urandom salt _ rng) as [[salt'|e] rng'];
    [|reflexivity].
  unfold ph_time_cost, ph_memory_cost, ph_parallelism, ph_hash_len, ph_type.
  destruct (hash_secret _ _ _ _ _ _ _); reflexivity.
Qed.

Lemma salt_or_urandom_supplied salt n rng :
  salt <> "" ->
  salt_or_urandom Rng os_urandom (Some salt) n rng = (Ok salt, rng).
Proof. destruct salt; [congruence|reflexivity]. Qed.

(** C7. For a password given as text, [hash] encodes it with the hasher's
    encoding.  Without a salt it draws one from the random source, asking for
    [salt_len] bytes (and so many it is, by the source's interface); with a
    salt it uses the salt.  It calls the primitive with the password bytes,
    the salt and the fields of the hasher's [Parameters]; it returns the
    primitive's encoded result as text and raises what the primitive raises
    ([HashingError], by the primitive's interface). *)
Theorem hash_calls_primitive self password secret rng :
  str_encode codecs_encode password (encoding self) = Ok secret ->
  let P := _parameters self in
  let call salt :=
    hash_secret secret salt (time_cost P) (memory_cost P) (parallelism P)
      (hash_len P) (type P) in
  let run := hash codecs_encode Rng os_urandom hash_secret self (Str password) in
  (forall salt rng',
     os_urandom (salt_len P) rng = (Ok salt, rng') ->
     (urandom_interface os_urandom ->
      Z.of_nat (String.length salt) = salt_len P)
     /\ (forall e, call salt = Err e ->
           run None rng = (Err e, rng')
           /\ (hash_secret_interface hash_secret ->
               run None rng = (Err HashingError, rng')))
     /\ (forall encoded text,
           call salt = Ok encoded -> ascii_encode text = Ok encoded ->
           run None rng = (Ok text, rng')))
  /\ (forall salt, salt <> "" ->
      (forall e, call salt = Err e ->
         run (Some salt) rng = (Err e, rng)
         /\ (hash_secret_interface hash_secret ->
             run (Some salt) rng = (Err HashingError, rng)))
      /\ (forall encoded text,
            call salt = Ok encoded -> ascii_encode text = Ok encoded ->
            run (Some salt) rng = (Ok text, rng))).
Proof.
  intros Hpw P call run. subst run. split.
  - intros salt rng' Hur. split; [|split].
    + intros Hi. exact (Hi _ _ _ _ Hur).
    + intros e He. rewrite hash_unfold. simpl. rewrite Hpw.
      unfold salt_or_urandom. simpl. fold P. rewrite Hur. fold (call salt).
      rewrite He. simpl. split; [reflexivity|].
      intros Hi. now rewrite (Hi _ _ _ _ _ _ _ _ He).
    + intros encoded text He Ht. rewrite hash_unfold. simpl. rewrite Hpw.
      unfold salt_or_urandom. simpl. fold P. rewrite Hur. fold (call salt).
      rewrite He. simpl. now rewrite (ascii_encode_decode _ _ Ht).
  - intros salt Hs. split.
    + intros e He. rewrite hash_unfold. simpl. rewrite Hpw.
      rewrite (salt_or_urandom_supplied _ _ _ Hs). fold P. fold (call salt).
      rewrite He. simpl. split; [reflexivity|].
      intros Hi. now rewrite (Hi _ _ _ _ _ _ _ _ He).
    + intros encoded text He Ht. rewrite hash_unfold. simpl. rewrite Hpw.
      rewrite (salt_or_urandom_supplied _ _ _ Hs). fold P. fold (call salt).
      rewrite He. simpl. now rewrite (ascii_encode_decode _ _ Ht).
Qed.

(** C9. An empty salt is not used: [hash] with [salt=b""] is [hash] without
    a salt, so the primitive is called with the bytes that the random source
    gives for [salt_len]. *)
Theorem hash_empty_salt_is_no_salt self password rng :
  hash codecs_encode Rng os_urandom hash_secret self password (Some "") rng
  = hash codecs_encode Rng os_urandom hash_secret self password None rng
  /\ (forall secret salt rng',
        _ensure_bytes codecs_encode password (encoding self) = Ok secret ->
        os_urandom (salt_len (_parameters self)) rng = (Ok salt, rng') ->
        hash codecs_encode Rng os_urandom hash_secret self password (Some "") rng
        = (do encoded <- hash_secret secret salt
                           (time_cost (_parameters self))
                           (memory_cost (_parameters self))
                           (parallelism (_parameters self))
                           (hash_len (_parameters self))
                           (type (_parameters self));
           ascii_decode encoded, rng')).
Proof.
  split.
  - rewrite !hash_unfold. reflexivity.
  - intros secret salt rng' Hpw Hur. rewrite hash_unfold, Hpw.
    unfold salt_or_urandom. simpl. now rewrite Hur.
Qed.

End HashProperties.

(** * The properties at work

    The collaborators' instances honour the interfaces the properties
    assume. *)

Lemma String_length_of_list l :
  String.length (string_of_list_ascii l) = List.length l.
Proof. induction l as [|c l IH]; simpl; congruence. Qed.

Lemma lcg_octets_length n seed : List.length (lcg_octets n seed).1 = n.
Proof.
  revert seed. induction n as [|n IH]; intros seed; simpl; [reflexivity|].
  specialize (IH (lcg_next seed)).
  destruct (lcg_octets n (lcg_next seed)) as [os seed']. simpl in *.
  congruence.
Qed.

Lemma lcg_urandom_interface : urandom_interface lcg_urandom.
Proof.
  intros n seed b seed'. unfold lcg_urandom.
  destruct (Z.ltb_spec n 0) as [Hn|Hn]; [discriminate|].
  pose proof (lcg_octets_length (Z.to_nat n) seed) as Hlen.
  destruct (lcg_octets (Z.to_nat n) seed) as [os s']. simpl in Hlen.
  intros [= <- <-]. unfold octets_to_bytes.
  rewrite String_length_of_list, length_map, Hlen. lia.
Qed.

Lemma standin_hash_secret_interface :
  hash_secret_interface standin_hash_secret.
Proof.
  intros secret salt t m p l ty e. unfold standin_hash_secret.
  destruct (_ && _); [discriminate|]. now intros [= <-].
Qed.

Lemma standin_verify_secret_interface :
  verify_secret_interface standin_verify_secret.
Proof.
  intros hash secret ty. unfold standin_verify_secret.
  destruct (decode_segments _) as [eh|]; [|tauto].
  destruct (Type_.eqb _ _); [|tauto].
  destruct (String.eqb _ _); tauto.
Qed.

Lemma extract_parameters_spec_interface :
  extract_parameters_interface extract_parameters_spec.
Proof.
  intros hash e. unfold extract_parameters_spec, decode.
  destruct (ascii_encode hash) as [b|e']; simpl.
  - destruct (decode_segments _); simpl; [discriminate|]. now intros [= <-].
  - now intros [= <-].
Qed.

(** The scenario of the specification (section 8), with the stand-in
    primitive: the hash starts with the parameters, verifies against its
    password and not against another, and needs no rehash. *)
Example scenario :
  let ph := low_memory_hasher in
  let run := hash py_codecs N lcg_urandom standin_hash_secret ph
               (Str (u "correct battery horse")) None 42%N in
  exists text encoded,
    run.1 = Ok text /\ ascii_encode text = Ok encoded
    /\ String.prefix "$argon2id$v=19$m=65536,t=3,p=4$" encoded = true
    /\ verify py_codecs standin_verify_secret ph (Str text)
         (Str (u "correct battery horse")) = Ok true
    /\ verify py_codecs standin_verify_secret ph (Str text)
         (Str (u "wrong")) = Err VerifyMismatchError
    /\ check_needs_rehash extract_parameters_spec ph (Str text) = Ok false.
Proof.
  eexists _, _. split; [vm_compute; reflexivity|].
  split; [vm_compute; reflexivity|].
  repeat split; vm_compute; reflexivity.
Qed.

(** A runtime patched after the import: the default parallelism is the one
    of the import, so [cls()], and with it [from_parameters], raises even
    for parameters with a single lane. *)
Remark from_parameters_patched_runtime :
  from_parameters rfc_9106_low_memory linux patched_wasm
    {| type := Type_.ID; version := 19; salt_len := 16; hash_len := 32;
       time_cost := 3; memory_cost := 65536; parallelism := 1 |}
  = Err UnsupportedParamsError.
Proof. reflexivity. Qed.

(** ** Instances of the theorems *)

Lemma check_needs_rehash_correct_witness :
  text_of (Str (u sample_hash)) (u sample_hash)
  /\ extract_parameters_spec (u sample_hash) = Ok sample_parameters
  /\ check_needs_rehash extract_parameters_spec sample_hasher
       (Str (u sample_hash)) = Ok false
  /\ check_needs_rehash extract_parameters_spec
       (set_parameters sample_hasher
          (mkParameters Type_.ID 19 8 24 4 65536 4))
       (Str (u sample_hash)) = Ok true.
Proof.
  assert (Hd : extract_parameters_spec (u sample_hash) = Ok sample_parameters)
    by (vm_compute; reflexivity).
  destruct (check_needs_rehash_correct extract_parameters_spec sample_hasher
              (Str (u sample_hash)) (u sample_hash) sample_parameters
              (text_of_str _) Hd) as (_ & _ & Hfalse & Hchanged).
  split; [constructor|]. split; [exact Hd|]. split.
  - apply Hfalse. reflexivity.
  - apply Hchanged. apply (changed_time_cost sample_parameters 4). discriminate.
Defined.

Lemma verify_header_dispatch_witness :
  ascii_bytes_of (Str (u foreign_hash)) foreign_hash
  /\ verify py_codecs standin_verify_secret sample_hasher
       (Str (u foreign_hash)) (Str (u "secret"))
     = Err InvalidHashError
  /\ verify py_codecs standin_verify_secret sample_hasher
       (Bytes sample_hash) (Str (u "secret"))
     = standin_verify_secret sample_hash "secret" Type_.ID.
Proof.
  assert (Hb : ascii_bytes_of (Str (u foreign_hash))
                 foreign_hash)
    by (constructor; vm_compute; reflexivity).
  split; [exact Hb|]. split.
  - apply (verify_header_dispatch py_codecs standin_verify_secret
             sample_hasher _ (Str (u "secret")) _ Hb); reflexivity.
  - apply (verify_header_dispatch py_codecs standin_verify_secret
             sample_hasher (Bytes sample_hash) (Str (u "secret")) sample_hash
             (ascii_bytes_of_bytes _)) with (tok := "$argon2id").
    + simpl. tauto.
    + reflexivity.
    + vm_compute; reflexivity.
Defined.

Lemma init_wrong_type_counterexample :
  isinstance (VStr (u "3")) c_int = false
  /\ (exists msg,
        __init__ linux (VStr (u "3")) (VInt 65536) (VInt 4) (VInt 32)
          (VInt 16) (VStr (u "utf-8")) (VType Type_.ID)
        = Err (TypeError msg))
  /\ __init__ linux (VStr (u "3")) (VInt 65536) (VInt 4) (VInt 32) (VInt 16)
       (VStr (u "utf-8")) (VType Type_.ID)
     <> Err InvalidParameterError.
Proof.
  split; [reflexivity|]. split; [eexists; reflexivity|discriminate].
Qed.

Lemma init_wrong_type_raises_TypeError_witness :
  well_typed_args (VInt 3) (VInt 65536) (VInt 4) (VInt 32) (VInt 16)
    (VBytes "utf-8") VNone = false
  /\ exists msg,
       __init__ pyodide (VInt 3) (VInt 65536) (VInt 4) (VInt 32) (VInt 16)
         (VBytes "utf-8") VNone = Err (TypeError msg).
Proof.
  split; [reflexivity|].
  destruct (init_wrong_type_raises_TypeError pyodide (VInt 3) (VInt 65536)
              (VInt 4) (VInt 32) (VInt 16) (VBytes "utf-8") VNone eq_refl)
    as [(msg & _ & E) _].
  exists msg. exact E.
Defined.

Lemma init_platform_rule_witness :
  well_typed_args (VInt 3) (VInt 65536) (VInt 4) (VInt 32) (VInt 16)
    (VStr (u "utf-8")) (VType Type_.ID) = true
  /\ is_wasm pyodide = true /\ is_wasm linux = false
  /\ __init__ pyodide (VInt 3) (VInt 65536) (VInt 4) (VInt 32) (VInt 16)
       (VStr (u "utf-8")) (VType Type_.ID) = Err UnsupportedParamsError
  /\ exists ph,
       __init__ linux (VInt 3) (VInt 65536) (VInt 4) (VInt 32) (VInt 16)
         (VStr (u "utf-8")) (VType Type_.ID) = Ok ph
       /\ ph_parallelism ph = 4.
Proof.
  split; [reflexivity|]. split; [reflexivity|]. split; [reflexivity|]. split.
  - apply (init_platform_rule pyodide (VInt 3) (VInt 65536) 4 (VInt 32)
             (VInt 16) (VStr (u "utf-8")) (VType Type_.ID) eq_refl);
      [discriminate|reflexivity].
  - apply (init_platform_rule linux (VInt 3) (VInt 65536) 4 (VInt 32)
             (VInt 16) (VStr (u "utf-8")) (VType Type_.ID) eq_refl);
      [discriminate|reflexivity].
Defined.

Lemma from_parameters_platform_rule_witness :
  from_parameters rfc_9106_low_memory pyodide pyodide sample_parameters
  = Err UnsupportedParamsError
  /\ exists ph,
       from_parameters rfc_9106_low_memory linux linux sample_parameters = Ok ph
       /\ _parameters ph = sample_parameters.
Proof.
  split.
  - apply (from_parameters_platform_rule rfc_9106_low_memory pyodide
             sample_parameters); [reflexivity|discriminate].
  - apply (from_parameters_platform_rule rfc_9106_low_memory linux
             sample_parameters). intros [Hw _]. discriminate Hw.
Defined.

Lemma malformed_hash_counterexample :
  extract_parameters_spec (u truncated_hash) = Err InvalidHashError
  /\ verify py_codecs standin_verify_secret sample_hasher
       (Str (u truncated_hash)) (Str (u "secret")) = Err VerificationError
  /\ extract_parameters_spec (u saltless_hash) = Err InvalidHashError
  /\ verify py_codecs standin_verify_secret sample_hasher
       (Str (u saltless_hash)) (Str (u "secret")) = Err VerificationError
  /\ verify py_codecs standin_verify_secret sample_hasher
       (Str non_ascii_text) (Str (u "secret")) = Err UnicodeEncodeError
  /\ check_needs_rehash extract_parameters_spec sample_hasher
       (Bytes non_ascii_bytes) = Err UnicodeDecodeError.
Proof. repeat split; vm_compute; reflexivity. Qed.

Lemma malformed_hash_errors_witness :
  extract_parameters_interface extract_parameters_spec
  /\ check_needs_rehash extract_parameters_spec sample_hasher
       (Str (u foreign_hash)) = Err InvalidHashError
  /\ check_needs_rehash extract_parameters_spec sample_hasher
       (Bytes truncated_hash) = Err InvalidHashError
  /\ verify py_codecs standin_verify_secret sample_hasher
       (Str (u foreign_hash)) (Str (u "secret")) = Err InvalidHashError
  /\ verify py_codecs standin_verify_secret sample_hasher
       (Bytes truncated_hash) (Str (u "secret"))
     = standin_verify_secret truncated_hash "secret" Type_.ID.
Proof.
  pose proof (malformed_hash_errors py_codecs standin_verify_secret
                extract_parameters_spec sample_hasher (Str (u foreign_hash))
                extract_parameters_spec_interface) as [Hc [Hv _]].
  pose proof (malformed_hash_errors py_codecs standin_verify_secret
                extract_parameters_spec sample_hasher (Bytes truncated_hash)
                extract_parameters_spec_interface) as [Hc' [_ Hv']].
  split; [exact extract_parameters_spec_interface|]. split; [|split; [|split]].
  - apply (Hc (u foreign_hash) InvalidHashError); [constructor|].
    vm_compute; reflexivity.
  - apply (Hc' (u truncated_hash) InvalidHashError).
    + constructor. vm_compute; reflexivity.
    + vm_compute; reflexivity.
  - apply (Hv foreign_hash); [constructor|]; vm_compute; reflexivity.
  - destruct (Hv' truncated_hash Type_.ID (Str (u "secret")) "secret")
      as [E _]; [constructor | reflexivity | reflexivity | exact E].
Defined.

Lemma hash_calls_primitive_witness :
  str_encode py_codecs (u "correct battery horse") (encoding low_memory_hasher)
  = Ok "correct battery horse"
  /\ hash py_codecs N lcg_urandom standin_hash_secret low_memory_hasher
       (Str (u "correct battery horse")) None 42%N
     = (Ok (u ("$argon2id$v=19$m=65536,t=3,p=4$iYmldSBFbYRhgVQS7tS1MA"
               +:+ "$dh2UNitsi1GMywMEaccVxh3usN6OGuyN4n4v/AFyAuQ")),
        238077914%N)
  /\ hash py_codecs N lcg_urandom standin_hash_secret
       (set_parameters low_memory_hasher
          (mkParameters Type_.ID 19 16 32 0 65536 4))
       (Str (u "correct battery horse")) (Some "somesalt") 42%N
     = (Err HashingError, 42%N).
Proof.
  assert (Hpw : forall P,
             str_encode py_codecs (u "correct battery horse")
               (encoding (set_parameters low_memory_hasher P))
             = Ok "correct battery horse")
    by (intros P; vm_compute; reflexivity).
  split; [exact (Hpw rfc_9106_low_memory)|]. split.
  - pose proof (hash_calls_primitive py_codecs N lcg_urandom
                  standin_hash_secret low_memory_hasher _ _ 42%N
                  (Hpw rfc_9106_low_memory)) as H.
    cbv zeta in H. destruct H as [Hnone _].
    eapply Hnone.
    + vm_compute; reflexivity.
    + vm_compute; reflexivity.
    + vm_compute; reflexivity.
  - pose proof (hash_calls_primitive py_codecs N lcg_urandom
                  standin_hash_secret _ _ _ 42%N
                  (Hpw (mkParameters Type_.ID 19 16 32 0 65536 4))) as H.
    cbv zeta in H. destruct H as [_ Hsome].
    destruct (Hsome "somesalt") as [Herr _]; [discriminate|].
    destruct (Herr HashingError) as [E _]; [vm_compute; reflexivity|exact E].
Defined.

Lemma hash_empty_salt_is_no_salt_witness :
  hash py_codecs N lcg_urandom standin_hash_secret low_memory_hasher
    (Bytes "secret") (Some "") 42%N
  = hash py_codecs N lcg_urandom standin_hash_secret low_memory_hasher
      (Bytes "secret") None 42%N
  /\ (hash py_codecs N lcg_urandom standin_hash_secret low_memory_hasher
        (Bytes "secret") (Some "") 42%N).2 = 238077914%N.
Proof.
  destruct (hash_empty_salt_is_no_salt py_codecs N lcg_urandom
              standin_hash_secret low_memory_hasher (Bytes "secret") 42%N)
    as [Hsame Hdraw].
  split; [exact Hsame|].
  erewrite Hdraw; [reflexivity|reflexivity|vm_compute; reflexivity].
Defined.

(** * Further properties of the module *)

(** ** Strings and the ["ascii"] codec *)

Lemma prefix_length a b :
  String.prefix a b = true -> (String.length a <= String.length b)%nat.
Proof.
  revert b. induction a as [|c a IH]; intros b; simpl; [lia|].
  destruct b as [|d b]; simpl; [discriminate|].
  destruct (ascii_dec c d); [|discriminate].
  intros H. apply IH in H. lia.
Qed.

Lemma prefix_app a rest : String.prefix a (a +:+ rest) = true.
Proof.
  induction a as [|c a IH]; simpl; [now destruct rest|].
  destruct (ascii_dec c c); [exact IH|contradiction].
Qed.

Lemma ascii_encode_non_ascii s :
  Exists (fun c => (128 <= c)%N) s -> ascii_encode s = Err UnicodeEncodeError.
Proof.
  induction 1 as [c s Hc|c s _ IH]; simpl.
  - destruct (N.ltb_spec c 128); [lia|reflexivity].
  - destruct (c <? 128)%N; [|reflexivity]. now rewrite IH.
Qed.

Lemma ascii_decode_non_ascii b :
  Exists (fun c => (128 <= N_of_ascii c)%N) (list_ascii_of_string b) ->
  ascii_decode b = Err UnicodeDecodeError.
Proof.
  induction b as [|c b IH]; simpl; intros H.
  - inversion H.
  - destruct (N.ltb_spec (N_of_ascii c) 128) as [Hc|Hc]; [|reflexivity].
    inversion H as [? ? Hc'|? ? Hb]; subst; [lia|].
    now rewrite IH.
Qed.

Lemma variant_of_header_short b :
  (String.length b < 9)%nat -> variant_of_header b = None.
Proof.
  intros Hlen. unfold variant_of_header.
  destruct (String.prefix "$argon2i$" b) eqn:Hi;
    [apply prefix_length in Hi; simpl in Hi; lia|].
  destruct (String.prefix "$argon2d$" b) eqn:Hd;
    [apply prefix_length in Hd; simpl in Hd; lia|].
  destruct (String.prefix "$argon2id" b) eqn:Hid;
    [apply prefix_length in Hid; simpl in Hid; lia|].
  reflexivity.
Qed.

Lemma prefix_cons a s b t :
  String.prefix (String a s) (String b t)
  = if ascii_dec a b then String.prefix s t else false.
Proof. reflexivity. Qed.

(** A prefix test on a string with known leading characters, assumed to
    succeed against the facts at hand. *)
Ltac prefix_absurd H :=
  cbv [String.append] in H; rewrite ?prefix_cons in H;
  repeat match type of H with
         | context [ascii_dec ?a ?b] =>
             destruct (ascii_dec a b); [|discriminate H]
         end;
  congruence.

(** ** More on verification and the rehash decision *)

(** X2. The header table and the slice of [verify] agree: every key of
    [_header_to_type] is nine bytes long, every variant has a key, and no
    two keys name the same variant. *)
Theorem header_table_keys :
  (forall k t, _header_to_type !! k = Some t -> String.length k = 9%nat)
  /\ (forall t, exists k, _header_to_type !! k = Some t)
  /\ (forall k1 k2 t, _header_to_type !! k1 = Some t ->
        _header_to_type !! k2 = Some t -> k1 = k2).
Proof.
  split; [|split].
  - intros k t H. apply header_lookup_Some in H.
    destruct H as [[-> _] | [[-> _] | [-> _]]]; reflexivity.
  - intros t. destruct t;
      [exists "$argon2d$" | exists "$argon2i$" | exists "$argon2id"];
      apply header_lookup_Some; tauto.
  - intros k1 k2 t H1 H2.
    apply header_lookup_Some in H1. apply header_lookup_Some in H2.
    destruct H1 as [[-> ->] | [[-> ->] | [-> ->]]];
      destruct H2 as [[-> E] | [[-> E] | [-> E]]];
      first [reflexivity | discriminate E].
Qed.

Section VerifyMore.

Variable codecs_encode : pystr -> pystr -> result bytes.
Variable verify_secret : bytes -> bytes -> Type_.t -> result bool.
Variable extract_parameters : pystr -> result Parameters.

(** X1. A hash of fewer than nine bytes, given as bytes or as ASCII text,
    is rejected with [InvalidHashError], whatever the password and the
    primitive: the empty hash and every cut header among them. *)
Theorem verify_short_hash_rejected self hash password b :
  ascii_bytes_of hash b ->
  (String.length b < 9)%nat ->
  verify codecs_encode verify_secret self hash password
  = Err InvalidHashError.
Proof.
  intros Hb Hlen.
  now rewrite (verify_unfold _ _ _ _ _ _ Hb), (variant_of_header_short _ Hlen).
Qed.

(** X3. The token of Argon2id carries no closing delimiter: every byte
    string that starts with [$argon2id], whatever follows, is handed to the
    primitive as an Argon2id hash, while [$argon2i] and [$argon2d] are
    recognized only when a [$] follows. *)
Theorem verify_argon2id_any_suffix self rest password :
  verify codecs_encode verify_secret self (Bytes ("$argon2id" +:+ rest)) password
  = (do secret <- _ensure_bytes codecs_encode password (encoding self);
     verify_secret ("$argon2id" +:+ rest) secret Type_.ID)
  /\ (forall c, c <> "$"%char ->
        verify codecs_encode verify_secret self
          (Bytes ("$argon2d" +:+ String c rest)) password
        = Err InvalidHashError)
  /\ (forall c, c <> "$"%char -> c <> "d"%char ->
        verify codecs_encode verify_secret self
          (Bytes ("$argon2i" +:+ String c rest)) password
        = Err InvalidHashError).
Proof.
  split; [|split].
  - rewrite (verify_unfold _ _ _ _ _ _ (ascii_bytes_of_bytes _)).
    unfold variant_of_header.
    replace (String.prefix "$argon2i$" ("$argon2id" +:+ rest)) with false
      by reflexivity.
    replace (String.prefix "$argon2d$" ("$argon2id" +:+ rest)) with false
      by reflexivity.
    now rewrite (prefix_app "$argon2id" rest).
  - intros c Hc.
    rewrite (verify_unfold _ _ _ _ _ _ (ascii_bytes_of_bytes _)).
    unfold variant_of_header.
    destruct (String.prefix "$argon2i$" _) eqn:H1; [exfalso; prefix_absurd H1|].
    destruct (String.prefix "$argon2d$" _) eqn:H2; [exfalso; prefix_absurd H2|].
    destruct (String.prefix "$argon2id" _) eqn:H3; [exfalso; prefix_absurd H3|].
    reflexivity.
  - intros c Hc Hd.
    rewrite (verify_unfold _ _ _ _ _ _ (ascii_bytes_of_bytes _)).
    unfold variant_of_header.
    destruct (String.prefix "$argon2i$" _) eqn:H1; [exfalso; prefix_absurd H1|].
    destruct (String.prefix "$argon2d$" _) eqn:H2; [exfalso; prefix_absurd H2|].
    destruct (String.prefix "$argon2id" _) eqn:H3; [exfalso; prefix_absurd H3|].
    reflexivity.
Qed.

End VerifyMore.

Section CoercionProperties.

Variables codecs_encode codecs_encode' : pystr -> pystr -> result bytes.
Variable verify_secret : bytes -> bytes -> Type_.t -> result bool.
Variable extract_parameters : pystr -> result Parameters.
Variable Rng : Type.
Variable os_urandom : Z -> Rng -> result bytes * Rng.
Variable hash_secret :
  bytes -> bytes -> Z -> Z -> Z -> Z -> Type_.t -> result bytes.

(** X4. [verify] consults the hasher for its text encoding only: two
    hashers with the same encoding verify alike, whatever variant, costs and
    lengths each was configured with. *)
Theorem verify_ignores_parameters ph1 ph2 hash password :
  encoding ph1 = encoding ph2 ->
  verify codecs_encode verify_secret ph1 hash password
  = verify codecs_encode verify_secret ph2 hash password.
Proof. intros E. unfold verify. now rewrite E. Qed.

(** X5. A hash given as text with a character outside ASCII makes [verify]
    raise [UnicodeEncodeError], whatever its header is: the coercion comes
    before the header is looked at. *)
Theorem verify_non_ascii_text_raises self s password :
  Exists (fun c => (128 <= c)%N) s ->
  verify codecs_encode verify_secret self (Str s) password
  = Err UnicodeEncodeError.
Proof.
  intros H. unfold verify. simpl. unfold str_encode.
  rewrite decide_True by reflexivity.
  now rewrite (ascii_encode_non_ascii _ H).
Qed.

(** X6. A hash given as bytes with a byte outside ASCII makes
    [check_needs_rehash] raise [UnicodeDecodeError]; the decoder is not
    consulted. *)
Theorem check_needs_rehash_non_ascii_bytes_raises self b :
  Exists (fun c => (128 <= N_of_ascii c)%N) (list_ascii_of_string b) ->
  check_needs_rehash extract_parameters self (Bytes b)
  = Err UnicodeDecodeError.
Proof.
  intros H. unfold check_needs_rehash.
  now rewrite (ascii_decode_non_ascii _ H).
Qed.

(** X7. A hash may be given as text or as bytes: for an ASCII text and its
    bytes, [verify] gives the same result, and so does
    [check_needs_rehash]. *)
Theorem hash_argument_text_or_bytes self s b password :
  ascii_encode s = Ok b ->
  verify codecs_encode verify_secret self (Str s) password
  = verify codecs_encode verify_secret self (Bytes b) password
  /\ check_needs_rehash extract_parameters self (Str s)
     = check_needs_rehash extract_parameters self (Bytes b).
Proof.
  intros H. split.
  - rewrite (verify_unfold _ _ _ _ _ _ (ascii_bytes_of_str _ _ H)).
    now rewrite (verify_unfold _ _ _ _ _ _ (ascii_bytes_of_bytes b)).
  - rewrite (check_needs_rehash_unfold _ _ _ _ (text_of_str s)).
    now rewrite (check_needs_rehash_unfold _ _ _ _ (text_of_bytes _ _ H)).
Qed.

(** X8. Byte arguments are never encoded: on a hash and a password given as
    bytes, [verify] is the same for every codec registry and every hasher,
    and [hash] on a password given as bytes is the same for every codec
    registry and every encoding of the hasher. *)
Theorem bytes_arguments_need_no_codec ph1 ph2 h p salt rng :
  verify codecs_encode verify_secret ph1 (Bytes h) (Bytes p)
  = verify codecs_encode' verify_secret ph2 (Bytes h) (Bytes p)
  /\ (_parameters ph1 = _parameters ph2 ->
      hash codecs_encode Rng os_urandom hash_secret ph1 (Bytes p) salt rng
      = hash codecs_encode' Rng os_urandom hash_secret ph2 (Bytes p) salt rng).
Proof.
  split.
  - reflexivity.
  - intros E. rewrite !hash_unfold. simpl. now rewrite E.
Qed.

End CoercionProperties.

Lemma init_Ok_inv env tc mc p hl sl enc ty ph :
  __init__ env tc mc p hl sl enc ty = Ok ph ->
  well_typed_args tc mc p hl sl enc ty = true
  /\ as_int tc = Some (ph_time_cost ph)
  /\ as_int mc = Some (ph_memory_cost ph)
  /\ as_int p = Some (ph_parallelism ph)
  /\ as_int hl = Some (ph_hash_len ph)
  /\ as_int sl = Some (ph_salt_len ph)
  /\ as_str enc = Some (encoding ph)
  /\ as_Type ty = Some (ph_type ph)
  /\ version (_parameters ph) = 19
  /\ (is_wasm env = true -> ph_parallelism ph = 1).
Proof.
  intros H.
  destruct (well_typed_args tc mc p hl sl enc ty) eqn:Hwt.
  - destruct (init_well_typed env _ _ _ _ _ _ _ Hwt)
      as (tc' & mc' & p' & hl' & sl' & enc' & ty'
          & -> & -> & -> & -> & -> & -> & -> & E).
    rewrite E in H. clear E.
    destruct (is_wasm env) eqn:Hw; simpl in H.
    + destruct (Z.eqb_spec p' 1) as [->|Hp]; simpl in H; [|discriminate].
      injection H as <-. repeat split; reflexivity.
    + injection H as <-. repeat split; try reflexivity. discriminate.
  - destruct (init_ill_typed env _ _ _ _ _ _ _ Hwt) as (msg & _ & E).
    rewrite E in H. discriminate.
Qed.

Lemma from_parameters_Ok_inv RFC boot env P ph :
  from_parameters RFC boot env P = Ok ph ->
  _parameters ph = P /\ encoding ph = u "utf-8".
Proof.
  unfold from_parameters.
  destruct (is_wasm env && negb (parallelism P =? 1)); [discriminate|].
  rewrite cls_unfold.
  destruct (is_wasm env && negb (DEFAULT_PARALLELISM RFC boot =? 1));
    [discriminate|].
  simpl. intros [= <-]. split; reflexivity.
Qed.

Section RehashMore.

Variable RFC_9106_LOW_MEMORY : Parameters.
Variable extract_parameters : pystr -> result Parameters.

(** X9. A hasher made by [from_parameters] from the parameters that a
    stored hash decodes to never asks to rehash that hash. *)
Theorem derived_hasher_needs_no_rehash boot env hash txt P ph :
  text_of hash txt ->
  extract_parameters txt = Ok P ->
  from_parameters RFC_9106_LOW_MEMORY boot env P = Ok ph ->
  check_needs_rehash extract_parameters ph hash = Ok false.
Proof.
  intros Ht HP Hph.
  apply from_parameters_Ok_inv in Hph as [E _].
  rewrite (check_needs_rehash_unfold _ _ _ _ Ht), HP. simpl. f_equal.
  apply Parameters_neb_false. exact E.
Qed.

(** X10. The constructor always sets version 19, so a hasher it built asks
    to rehash every stored hash that decodes to another version, whatever
    the other parameters are. *)
Theorem other_version_needs_rehash env tc mc p hl sl enc ty ph hash txt P :
  __init__ env tc mc p hl sl enc ty = Ok ph ->
  text_of hash txt ->
  extract_parameters txt = Ok P ->
  version P <> 19 ->
  check_needs_rehash extract_parameters ph hash = Ok true.
Proof.
  intros Hph Ht HP Hv.
  apply init_Ok_inv in Hph as (_ & _ & _ & _ & _ & _ & _ & _ & E & _).
  rewrite (check_needs_rehash_unfold _ _ _ _ Ht), HP. simpl. f_equal.
  apply Parameters_neb_true. intros E'. rewrite E' in E. congruence.
Qed.

End RehashMore.

(** ** More on construction *)

(** X11. The constructor succeeds exactly when every argument passes its
    type check and, in a constrained runtime, the parallelism is 1: no range
    is checked, so zero and negative costs and lengths are accepted. *)
Theorem init_succeeds_iff env tc mc p hl sl enc ty :
  (exists ph, __init__ env tc mc p hl sl enc ty = Ok ph)
  <-> well_typed_args tc mc p hl sl enc ty = true
      /\ (is_wasm env = true -> as_int p = Some 1).
Proof.
  split.
  - intros [ph H].
    apply init_Ok_inv in H as (Hwt & _ & _ & Hp & _ & _ & _ & _ & _ & Hw).
    split; [exact Hwt|]. intros W. now rewrite Hp, (Hw W).
  - intros [Hwt Hw].
    destruct (init_well_typed env _ _ _ _ _ _ _ Hwt)
      as (tc' & mc' & p' & hl' & sl' & enc' & ty'
          & _ & _ & Hp & _ & _ & _ & _ & E).
    rewrite E. destruct (is_wasm env); simpl; [|eauto].
    specialize (Hw eq_refl). rewrite Hp in Hw. injection Hw as ->.
    simpl. eauto.
Qed.

(** X12. What the constructor accepted is what the properties return: the
    hasher's [time_cost], [memory_cost], [parallelism], [hash_len],
    [salt_len], [type] and [encoding] are the arguments' values, and its
    version is 19. *)
Theorem constructor_properties env tc mc p hl sl enc ty ph :
  __init__ env tc mc p hl sl enc ty = Ok ph ->
  as_int tc = Some (ph_time_cost ph)
  /\ as_int mc = Some (ph_memory_cost ph)
  /\ as_int p = Some (ph_parallelism ph)
  /\ as_int hl = Some (ph_hash_len ph)
  /\ as_int sl = Some (ph_salt_len ph)
  /\ as_Type ty = Some (ph_type ph)
  /\ as_str enc = Some (encoding ph)
  /\ version (_parameters ph) = 19.
Proof.
  intros H.
  apply init_Ok_inv in H
    as (_ & Htc & Hmc & Hp & Hhl & Hsl & Henc & Hty & Hv & _).
  repeat split; assumption.
Qed.

Section DefaultsMore.

Variable RFC_9106_LOW_MEMORY : Parameters.

(** X13. In the runtime the module was imported in, the constructor with
    every argument at its default succeeds: the hasher has the profile's
    costs and lengths, one lane in a constrained runtime and the profile's
    lanes otherwise, Argon2id, version 19 and the encoding ["utf-8"]. *)
Theorem default_hasher_in_import_runtime runtime :
  cls RFC_9106_LOW_MEMORY runtime runtime
  = Ok {| _parameters :=
            {| type := Type_.ID; version := 19;
               salt_len := salt_len RFC_9106_LOW_MEMORY;
               hash_len := hash_len RFC_9106_LOW_MEMORY;
               time_cost := time_cost RFC_9106_LOW_MEMORY;
               memory_cost := memory_cost RFC_9106_LOW_MEMORY;
               parallelism :=
                 if is_wasm runtime then 1
                 else parallelism RFC_9106_LOW_MEMORY |};
          encoding := u "utf-8" |}.
Proof.
  rewrite cls_unfold. unfold DEFAULT_PARALLELISM.
  destruct (is_wasm runtime); reflexivity.
Qed.

(** X14. [from_parameters] checks nothing of the parameters but the lanes:
    it raises [UnsupportedParamsError] when the runtime of the call is
    constrained and the parameters, or the default fixed at import, have
    more than one lane; otherwise it returns a hasher that holds the
    parameters as they are, with the encoding ["utf-8"]. *)
Theorem from_parameters_outcome boot env P :
  from_parameters RFC_9106_LOW_MEMORY boot env P
  = if is_wasm env
       && (negb (parallelism P =? 1)
           || negb (DEFAULT_PARALLELISM RFC_9106_LOW_MEMORY boot =? 1))
    then Err UnsupportedParamsError
    else Ok {| _parameters := P; encoding := u "utf-8" |}.
Proof.
  unfold from_parameters. rewrite cls_unfold.
  destruct (is_wasm env); simpl; [|reflexivity].
  destruct (negb (parallelism P =? 1)); simpl; [reflexivity|].
  destruct (negb (DEFAULT_PARALLELISM RFC_9106_LOW_MEMORY boot =? 1));
    reflexivity.
Qed.

(** X15. What the constructor accepted, [from_parameters] accepts: in one
    runtime, a hasher's parameters give back a hasher with these
    parameters, and with the default encoding. *)
Theorem from_parameters_after_init runtime tc mc p hl sl enc ty ph :
  __init__ runtime tc mc p hl sl enc ty = Ok ph ->
  from_parameters RFC_9106_LOW_MEMORY runtime runtime (_parameters ph)
  = Ok {| _parameters := _parameters ph; encoding := u "utf-8" |}.
Proof.
  intros H.
  apply init_Ok_inv in H as (_ & _ & _ & _ & _ & _ & _ & _ & _ & Hw).
  unfold from_parameters, ph_parallelism in *.
  destruct (is_wasm runtime) eqn:W; simpl.
  - rewrite (Hw eq_refl). simpl.
    rewrite cls_unfold, W. unfold DEFAULT_PARALLELISM. rewrite W. reflexivity.
  - rewrite cls_unfold, W. reflexivity.
Qed.

End DefaultsMore.

(** ** More on hashing *)

Section HashMore.

Variable codecs_encode : pystr -> pystr -> result bytes.
Variable Rng : Type.
Variable os_urandom : Z -> Rng -> result bytes * Rng.
Variable hash_secret :
  bytes -> bytes -> Z -> Z -> Z -> Z -> Type_.t -> result bytes.

(** X16. With a salt supplied (and not empty), [hash] leaves the random
    source as it found it, and its result does not depend on the state of
    the source. *)
Theorem hash_supplied_salt_draws_nothing self password salt rng rng0 :
  salt <> "" ->
  (hash codecs_encode Rng os_urandom hash_secret self password (Some salt) rng).2
  = rng
  /\ (hash codecs_encode Rng os_urandom hash_secret self password (Some salt)
        rng).1
     = (hash codecs_encode Rng os_urandom hash_secret self password (Some salt)
          rng0).1.
Proof.
  intros Hs. rewrite !hash_unfold.
  destruct (_ensure_bytes codecs_encode password (encoding self));
    [|split; reflexivity].
  rewrite !(salt_or_urandom_supplied _ _ _ _ _ Hs). split; reflexivity.
Qed.

(** X17. When the password cannot be encoded, [hash] raises the codec's
    error and has drawn nothing from the random source, with or without a
    salt: the password is coerced before the salt is made. *)
Theorem hash_encoding_error_draws_nothing self password salt rng e :
  _ensure_bytes codecs_encode password (encoding self) = Err e ->
  hash codecs_encode Rng os_urandom hash_secret self password salt rng
  = (Err e, rng).
Proof. intros H. now rewrite hash_unfold, H. Qed.

(** X18. [hash] does not read the version of the hasher's parameters, and
    reads [salt_len] only to make a salt: hashers that agree on encoding,
    costs, lanes, hash length and variant hash alike when they agree on
    [salt_len] or are given a salt. *)
Theorem hash_ignores_version ph1 ph2 password salt rng :
  encoding ph1 = encoding ph2 ->
  time_cost (_parameters ph1) = time_cost (_parameters ph2) ->
  memory_cost (_parameters ph1) = memory_cost (_parameters ph2) ->
  parallelism (_parameters ph1) = parallelism (_parameters ph2) ->
  hash_len (_parameters ph1) = hash_len (_parameters ph2) ->
  type (_parameters ph1) = type (_parameters ph2) ->
  salt_len (_parameters ph1) = salt_len (_parameters ph2)
  \/ truthy_opt_bytes salt = true ->
  hash codecs_encode Rng os_urandom hash_secret ph1 password salt rng
  = hash codecs_encode Rng os_urandom hash_secret ph2 password salt rng.
Proof.
  intros He Ht Hm Hp Hh Hty Hs. rewrite !hash_unfold.
  rewrite He, Ht, Hm, Hp, Hh, Hty.
  destruct (_ensure_bytes codecs_encode password (encoding ph2));
    [|reflexivity].
  destruct Hs as [Hs|Hs].
  - now rewrite Hs.
  - unfold salt_or_urandom. now rewrite Hs.
Qed.

(** X19. Every result of [hash] is the ASCII text of what the primitive
    returned for the password's bytes, the parameters' fields and a salt
    that is the supplied one, the random source untouched, or else the
    [salt_len] bytes drawn from the source. *)
Theorem hash_result_inv self password salt rng text rng' :
  hash codecs_encode Rng os_urandom hash_secret self password salt rng
  = (Ok text, rng') ->
  exists secret salt' encoded,
    _ensure_bytes codecs_encode password (encoding self) = Ok secret
    /\ (if truthy_opt_bytes salt then salt = Some salt' /\ rng' = rng
        else os_urandom (salt_len (_parameters self)) rng = (Ok salt', rng'))
    /\ hash_secret secret salt' (time_cost (_parameters self))
         (memory_cost (_parameters self)) (parallelism (_parameters self))
         (hash_len (_parameters self)) (type (_parameters self)) = Ok encoded
    /\ ascii_encode text = Ok encoded.
Proof.
  rewrite hash_unfold.
  destruct (_ensure_bytes codecs_encode password (encoding self))
    as [secret|e]; [|discriminate].
  unfold salt_or_urandom.
  destruct (truthy_opt_bytes salt) eqn:Hs.
  - destruct salt as [salt'|]; [|discriminate Hs]. simpl.
    destruct (hash_secret _ _ _ _ _ _ _) as [encoded|e] eqn:Hp;
      simpl; [|discriminate].
    destruct (ascii_decode encoded) as [t|e] eqn:Hd; [|discriminate].
    intros [= -> <-]. exists secret, salt', encoded.
    repeat split; try assumption. now apply ascii_decode_encode.
  - destruct (os_urandom _ rng) as [[salt'|e] r] eqn:Hu; [|discriminate].
    destruct (hash_secret _ _ _ _ _ _ _) as [encoded|e] eqn:Hp;
      simpl; [|discriminate].
    destruct (ascii_decode encoded) as [t|e] eqn:Hd; [|discriminate].
    intros [= -> <-]. exists secret, salt', encoded.
    repeat split; try assumption. now apply ascii_decode_encode.
Qed.

End HashMore.

(** ** Instances of the further properties *)

(** A hash of the former version 16, and a hash text with a character
    outside ASCII after a recognized header. *)
Definition version_16_hash : string :=
  "$argon2id$v=16$m=65536,t=3,p=4$c29tZXNhbHQ$RdescudvJCsgt3ub+b+dWRWJTmaaJObG".

Definition non_ascii_argon2_text : pystr := (233%N :: u "$argon2id$v=19$")%list.

(** The text that [hash] gives for the password of the scenario. *)
Definition scenario_text : pystr :=
  u ("$argon2id$v=19$m=65536,t=3,p=4$iYmldSBFbYRhgVQS7tS1MA"
     +:+ "$dh2UNitsi1GMywMEaccVxh3usN6OGuyN4n4v/AFyAuQ").

Lemma verify_short_hash_rejected_witness :
  ascii_bytes_of (Str (u "$argon2")) "$argon2"
  /\ verify py_codecs standin_verify_secret sample_hasher
       (Str (u "$argon2")) (Str (u "secret")) = Err InvalidHashError
  /\ verify py_codecs standin_verify_secret sample_hasher
       (Bytes "") (Str (u "secret")) = Err InvalidHashError.
Proof.
  assert (Hb : ascii_bytes_of (Str (u "$argon2")) "$argon2")
    by (constructor; reflexivity).
  split; [exact Hb|]. split.
  - apply (verify_short_hash_rejected py_codecs standin_verify_secret
             sample_hasher _ _ "$argon2" Hb). simpl. lia.
  - apply (verify_short_hash_rejected py_codecs standin_verify_secret
             sample_hasher _ _ "" (ascii_bytes_of_bytes _)). simpl. lia.
Defined.

Lemma verify_ignores_parameters_witness :
  _parameters sample_hasher <> _parameters low_memory_hasher
  /\ verify py_codecs standin_verify_secret sample_hasher
       (Bytes sample_hash) (Str (u "secret"))
     = verify py_codecs standin_verify_secret low_memory_hasher
         (Bytes sample_hash) (Str (u "secret")).
Proof.
  split; [discriminate|].
  exact (verify_ignores_parameters py_codecs standin_verify_secret
           sample_hasher low_memory_hasher (Bytes sample_hash)
           (Str (u "secret")) eq_refl).
Defined.

Lemma verify_non_ascii_text_raises_witness :
  verify py_codecs standin_verify_secret sample_hasher
    (Str non_ascii_argon2_text) (Str (u "secret")) = Err UnicodeEncodeError.
Proof.
  apply (verify_non_ascii_text_raises py_codecs standin_verify_secret).
  apply Exists_cons_hd. lia.
Defined.

Lemma check_needs_rehash_non_ascii_bytes_raises_witness :
  check_needs_rehash extract_parameters_spec sample_hasher
    (Bytes (String (ascii_of_N 233) sample_hash)) = Err UnicodeDecodeError.
Proof.
  apply (check_needs_rehash_non_ascii_bytes_raises extract_parameters_spec).
  apply Exists_cons_hd. vm_compute. discriminate.
Defined.

Lemma hash_argument_text_or_bytes_witness :
  ascii_encode (u sample_hash) = Ok sample_hash
  /\ verify py_codecs standin_verify_secret sample_hasher
       (Str (u sample_hash)) (Str (u "secret"))
     = verify py_codecs standin_verify_secret sample_hasher
         (Bytes sample_hash) (Str (u "secret"))
  /\ check_needs_rehash extract_parameters_spec sample_hasher
       (Str (u sample_hash))
     = check_needs_rehash extract_parameters_spec sample_hasher
         (Bytes sample_hash).
Proof.
  assert (H : ascii_encode (u sample_hash) = Ok sample_hash)
    by (vm_compute; reflexivity).
  split; [exact H|].
  exact (hash_argument_text_or_bytes py_codecs standin_verify_secret
           extract_parameters_spec sample_hasher _ _ (Str (u "secret")) H).
Defined.

Lemma derived_hasher_needs_no_rehash_witness :
  extract_parameters_spec (u sample_hash) = Ok sample_parameters
  /\ from_parameters rfc_9106_low_memory linux linux sample_parameters
     = Ok sample_hasher
  /\ check_needs_rehash extract_parameters_spec sample_hasher
       (Str (u sample_hash)) = Ok false.
Proof.
  assert (Hd : extract_parameters_spec (u sample_hash) = Ok sample_parameters)
    by (vm_compute; reflexivity).
  assert (Hf : from_parameters rfc_9106_low_memory linux linux
                 sample_parameters = Ok sample_hasher) by reflexivity.
  split; [exact Hd|]. split; [exact Hf|].
  exact (derived_hasher_needs_no_rehash rfc_9106_low_memory
           extract_parameters_spec linux linux (Str (u sample_hash))
           (u sample_hash) sample_parameters sample_hasher
           (text_of_str _) Hd Hf).
Defined.

Lemma other_version_needs_rehash_witness :
  __init__ linux (VInt 3) (VInt 65536) (VInt 4) (VInt 24) (VInt 8)
    (VStr (u "utf-8")) (VType Type_.ID) = Ok sample_hasher
  /\ extract_parameters_spec (u version_16_hash)
     = Ok (mkParameters Type_.ID 16 8 24 3 65536 4)
  /\ check_needs_rehash extract_parameters_spec sample_hasher
       (Str (u version_16_hash)) = Ok true.
Proof.
  assert (Hd : extract_parameters_spec (u version_16_hash)
               = Ok (mkParameters Type_.ID 16 8 24 3 65536 4))
    by (vm_compute; reflexivity).
  split; [reflexivity|]. split; [exact Hd|].
  apply (other_version_needs_rehash extract_parameters_spec linux (VInt 3)
           (VInt 65536) (VInt 4) (VInt 24) (VInt 8) (VStr (u "utf-8"))
           (VType Type_.ID) sample_hasher (Str (u version_16_hash))
           (u version_16_hash) _ eq_refl (text_of_str _) Hd).
  discriminate.
Defined.

Lemma constructor_properties_witness :
  __init__ linux (VInt 3) (VInt 65536) (VBool true) (VInt 32) (VInt 16)
    (VStr (u "latin-1")) (VType Type_.D)
  = Ok {| _parameters := mkParameters Type_.D 19 16 32 3 65536 1;
          encoding := u "latin-1" |}
  /\ as_int (VBool true)
     = Some (ph_parallelism
               {| _parameters := mkParameters Type_.D 19 16 32 3 65536 1;
                  encoding := u "latin-1" |}).
Proof.
  split; [reflexivity|].
  apply (constructor_properties linux (VInt 3) (VInt 65536) (VBool true)
           (VInt 32) (VInt 16) (VStr (u "latin-1")) (VType Type_.D) _ eq_refl).
Defined.

Lemma from_parameters_after_init_witness :
  __init__ pyodide (VInt 3) (VInt 65536) (VInt 1) (VInt 32) (VInt 16)
    (VStr (u "latin-1")) (VType Type_.I)
  = Ok {| _parameters := mkParameters Type_.I 19 16 32 3 65536 1;
          encoding := u "latin-1" |}
  /\ from_parameters rfc_9106_low_memory pyodide pyodide
       (mkParameters Type_.I 19 16 32 3 65536 1)
     = Ok {| _parameters := mkParameters Type_.I 19 16 32 3 65536 1;
             encoding := u "utf-8" |}.
Proof.
  split; [reflexivity|].
  exact (from_parameters_after_init rfc_9106_low_memory pyodide (VInt 3)
           (VInt 65536) (VInt 1) (VInt 32) (VInt 16) (VStr (u "latin-1"))
           (VType Type_.I) _ eq_refl).
Defined.

Lemma hash_supplied_salt_draws_nothing_witness :
  (hash py_codecs N lcg_urandom standin_hash_secret low_memory_hasher
     (Str (u "secret")) (Some "somesalt") 42%N).2 = 42%N
  /\ (hash py_codecs N lcg_urandom standin_hash_secret low_memory_hasher
        (Str (u "secret")) (Some "somesalt") 42%N).1
     = (hash py_codecs N lcg_urandom standin_hash_secret low_memory_hasher
          (Str (u "secret")) (Some "somesalt") 7%N).1.
Proof.
  apply (hash_supplied_salt_draws_nothing py_codecs N lcg_urandom
           standin_hash_secret low_memory_hasher (Str (u "secret"))
           "somesalt" 42%N 7%N).
  discriminate.
Defined.

Lemma hash_encoding_error_draws_nothing_witness :
  _ensure_bytes py_codecs (Str [55357%N]) (encoding low_memory_hasher)
  = Err UnicodeEncodeError
  /\ hash py_codecs N lcg_urandom standin_hash_secret low_memory_hasher
       (Str [55357%N]) None 42%N = (Err UnicodeEncodeError, 42%N)
  /\ hash py_codecs N lcg_urandom standin_hash_secret
       {| _parameters := rfc_9106_low_memory; encoding := u "klingon" |}
       (Str (u "secret")) None 42%N = (Err LookupError, 42%N).
Proof.
  split; [reflexivity|]. split.
  - apply (hash_encoding_error_draws_nothing py_codecs N lcg_urandom
             standin_hash_secret low_memory_hasher). reflexivity.
  - apply (hash_encoding_error_draws_nothing py_codecs N lcg_urandom
             standin_hash_secret). reflexivity.
Defined.

Lemma hash_ignores_version_witness :
  hash py_codecs N lcg_urandom standin_hash_secret low_memory_hasher
    (Str (u "secret")) (Some "somesalt") 42%N
  = hash py_codecs N lcg_urandom standin_hash_secret
      {| _parameters := mkParameters Type_.ID 16 0 32 3 65536 4;
         encoding := u "utf-8" |}
      (Str (u "secret")) (Some "somesalt") 42%N.
Proof.
  apply (hash_ignores_version py_codecs N lcg_urandom standin_hash_secret
           low_memory_hasher
           {| _parameters := mkParameters Type_.ID 16 0 32 3 65536 4;
              encoding := u "utf-8" |});
    try reflexivity.
  right. reflexivity.
Defined.

Lemma hash_result_inv_witness :
  hash py_codecs N lcg_urandom standin_hash_secret low_memory_hasher
    (Str (u "correct battery horse")) None 42%N
  = (Ok scenario_text, 238077914%N)
  /\ exists encoded, ascii_encode scenario_text = Ok encoded.
Proof.
  assert (H : hash py_codecs N lcg_urandom standin_hash_secret
                low_memory_hasher (Str (u "correct battery horse")) None 42%N
              = (Ok scenario_text, 238077914%N)) by (vm_compute; reflexivity).
  split; [exact H|].
  destruct (hash_result_inv py_codecs N lcg_urandom standin_hash_secret
              _ _ _ _ _ _ H) as (secret & salt' & encoded & _ & _ & _ & E).
  exists encoded. exact E.
Defined.

Lemma verify_true_or_raises_witness :
  verify_secret_interface standin_verify_secret
  /\ standin_verify_secret
       ("$argon2id$v=19$m=65536,t=3,p=4$iYmldSBFbYRhgVQS7tS1MA"
        +:+ "$dh2UNitsi1GMywMEaccVxh3usN6OGuyN4n4v/AFyAuQ")
       "correct battery horse" Type_.ID = Ok true
  /\ verify py_codecs standin_verify_secret low_memory_hasher
       (Str scenario_text) (Str (u "correct battery horse")) = Ok true
  /\ (verify py_codecs standin_verify_secret low_memory_hasher
        (Str scenario_text) (Str (u "wrong")) = Ok true
      \/ exists e,
           verify py_codecs standin_verify_secret low_memory_hasher
             (Str scenario_text) (Str (u "wrong")) = Err e).
Proof.
  assert (Hok : standin_verify_secret
                  ("$argon2id$v=19$m=65536,t=3,p=4$iYmldSBFbYRhgVQS7tS1MA"
                   +:+ "$dh2UNitsi1GMywMEaccVxh3usN6OGuyN4n4v/AFyAuQ")
                  "correct battery horse" Type_.ID = Ok true)
    by (vm_compute; reflexivity).
  split; [exact standin_verify_secret_interface|]. split; [exact Hok|]. split.
  - destruct (verify_true_or_raises py_codecs standin_verify_secret
                low_memory_hasher (Str scenario_text)
                (Str (u "correct battery horse"))
                standin_verify_secret_interface) as (_ & _ & Hfwd).
    apply (Hfwd ("$argon2id$v=19$m=65536,t=3,p=4$iYmldSBFbYRhgVQS7tS1MA"
                 +:+ "$dh2UNitsi1GMywMEaccVxh3usN6OGuyN4n4v/AFyAuQ")
             "correct battery horse" Type_.ID);
      [constructor; vm_compute; reflexivity
      |vm_compute; reflexivity
      |vm_compute; reflexivity
      |exact Hok].
  - exact (proj1 (verify_true_or_raises py_codecs standin_verify_secret
                    low_memory_hasher (Str scenario_text) (Str (u "wrong"))
                    standin_verify_secret_interface)).
Defined.
